(** * NHIS fraud detection: the record-to-prediction pipeline of [app.py]

    A shallow embedding of the upload pipeline of the hospital dashboard
    ([preprocess_data], [make_predictions], the upload branch of
    [hospital_dashboard]), of the national analytics of [admin_dashboard] and of
    the storage shim [to_int_if_bytes], together with the properties the
    specification states about them.

    Conventions of the model:
    - a pandas [DataFrame] is a row count and an ordered list of named columns;
      frames are Python objects, so they live in a heap and are passed by
      reference, [df.copy()] allocates;
    - exceptions are values of [exn]; a computation is a function from the world
      (heap, files, database connection) to a result or an exception, and the
      world it leaves behind: what was written before an exception stays;
    - float64 numbers are idealised as rationals (no rounding); no property below
      depends on a scaled value;
    - the pickled artifacts (classifier, scaler, encoders) and the date parser of
      pandas are parameters of the pipeline; the checks that scikit-learn and
      XGBoost make on what they are given, before the artifact is used, are
      part of the model;
    - a CSV file is modelled by the frame written to it. *)

From stdpp Require Import gmap strings list fin_maps pretty.
From Stdlib Require Import QArith.

Open Scope Z_scope.

(** ** Tables *)

Inductive cell :=
| Str (s : string)
| Num (q : Q)
| NaN
| Timestamp (ns : Z).

#[global] Instance Q_eq_dec : EqDecision Q.
Proof. solve_decision. Defined.

#[global] Instance cell_eq_dec : EqDecision cell.
Proof. solve_decision. Defined.

(** A column: one cell per row. *)
Abbreviation Series := (list cell).

Record DataFrame := mkDataFrame {
  nrows : nat;
  cols : list (string * Series)
}.

#[global] Instance DataFrame_eq_dec : EqDecision DataFrame.
Proof. solve_decision. Defined.

(** [df.columns] *)
Definition columns (df : DataFrame) : list string := (cols df).*1.

(** The shape invariant of a frame: every column has one cell per row and no
    name occurs twice ([read_csv] renames duplicated headers). *)
Definition frame_wf (df : DataFrame) : Prop :=
  NoDup (columns df) ∧ Forall (λ c, length c.2 = nrows df) (cols df).

(** The index of a frame is an int64 range, which bounds the row count. *)
Definition index_bounded (df : DataFrame) : Prop :=
  Z.of_nat (nrows df) < 2 ^ 63.

Fixpoint lookup_col (c : string) (cs : list (string * Series)) : option Series :=
  match cs with
  | [] => None
  | (c', v) :: cs' => if decide (c' = c) then Some v else lookup_col c cs'
  end.

(** [df[c] = v]: an existing column is replaced where it stands, a new one is
    appended after the others. *)
Fixpoint set_col (c : string) (v : Series) (cs : list (string * Series))
  : list (string * Series) :=
  match cs with
  | [] => [(c, v)]
  | (c', v') :: cs' =>
      if decide (c' = c) then (c, v) :: cs' else (c', v') :: set_col c v cs'
  end.

(** [df.drop(names, axis=1, errors='ignore')] *)
Definition drop_cols (names : list string) (cs : list (string * Series))
  : list (string * Series) :=
  filter (λ p, p.1 ∉ names) cs.

Definition isnull (c : cell) : bool :=
  match c with NaN => true | _ => false end.

(** ** Exceptions and the world *)

Inductive storage_step :=
| WriteData | WritePredictions | InsertDataset | InsertSummary | Commit.

#[global] Instance storage_step_eq_dec : EqDecision storage_step.
Proof. solve_decision. Defined.

Inductive exn :=
| KeyError (c : string)
| InvalidDateFormat          (* ValueError raised by preprocess_data *)
| UnseenLabel (v : cell)     (* ValueError of LabelEncoder: previously unseen labels *)
| NotNumeric                 (* ValueError of the scaler: could not convert to float *)
| EmptySamples               (* ValueError of the scaler: found array with 0 sample(s) *)
| ModelError (msg : string)  (* whatever model.predict raises *)
| LengthMismatch             (* ValueError: length of values does not match index *)
| DanglingRef
| StorageError (s : storage_step).

#[global] Instance exn_eq_dec : EqDecision exn.
Proof. solve_decision. Defined.

(** Values as sqlite3 stores them. *)
Inductive sqlval :=
| SqlNull
| SqlInt (n : Z)
| SqlBlob (bs : list Byte.byte).

#[global] Instance byte_eq_dec : EqDecision Byte.byte.
Proof. intros x y. destruct (Byte.byte_eq_dec x y); [left|right]; done. Defined.

#[global] Instance sqlval_eq_dec : EqDecision sqlval.
Proof. solve_decision. Defined.

(** Rows of the tables [datasets] and [predictions]. *)
Record dataset_row := mkDataset {
  ds_id : nat;
  ds_hospital_id : nat;
  ds_upload_date : string;
  ds_data_path : string;
  ds_predictions_path : string
}.

Record prediction_row := mkPrediction {
  pr_id : nat;
  pr_dataset_id : nat;
  pr_total_cases : sqlval;
  pr_fraud_count : sqlval;
  pr_non_fraud_count : sqlval
}.

#[global] Instance dataset_row_eq_dec : EqDecision dataset_row.
Proof. solve_decision. Defined.

#[global] Instance prediction_row_eq_dec : EqDecision prediction_row.
Proof. solve_decision. Defined.

(** The two tables with their AUTOINCREMENT counters. *)
Record database := mkDatabase {
  datasets : list dataset_row;
  predictions : list prediction_row;
  seq_datasets : nat;
  seq_predictions : nat
}.

#[global] Instance database_eq_dec : EqDecision database.
Proof. solve_decision. Defined.

Definition loc := nat.

(** [heap]: the frames of the running process. [files]: the directories
    [data/] and [results/]. [conn]: the database as the process-wide connection
    [conn] sees it, pending inserts included. [disk]: the database as of the
    last [conn.commit()]. *)
Record world := mkWorld {
  heap : gmap loc DataFrame;
  files : gmap string DataFrame;
  conn : database;
  disk : database
}.

(** What is persisted: everything but the heap. *)
Definition store_of (w : world) : gmap string DataFrame * database * database :=
  (files w, conn w, disk w).

Definition M (A : Type) : Type := world → (exn + A) * world.

Definition ret {A} (x : A) : M A := λ w, (inr x, w).
Definition raise {A} (e : exn) : M A := λ w, (inl e, w).
Definition bind {A B} (m : M A) (k : A → M B) : M B :=
  λ w, match m w with
       | (inl e, w') => (inl e, w')
       | (inr x, w') => k x w'
       end.

Declare Scope py_scope.
Delimit Scope py_scope with py.
Notation "'let*' x ':=' m 'in' k" := (bind m (λ x, k))
  (at level 10, x name, m at level 100, k at level 200, only parsing) : py_scope.
Notation "m ';;' k" := (bind m (λ _, k))
  (at level 100, k at level 200, right associativity, only parsing) : py_scope.

(** Lifting of a computation that touches nothing. *)
Definition lift {A} (r : exn + A) : M A := λ w, (r, w).

Definition set_heap (h : gmap loc DataFrame) (w : world) : world :=
  mkWorld h (files w) (conn w) (disk w).

(** ** Frame operations *)

Definition deref (r : loc) : M DataFrame :=
  λ w, match heap w !! r with
       | Some df => (inr df, w)
       | None => (inl DanglingRef, w)
       end.

(** [df.copy()] *)
Definition df_copy (r : loc) : M loc :=
  (let* df := deref r in
   λ w, let r' := fresh (dom (heap w)) in
        (inr r', set_heap (<[r' := df]> (heap w)) w))%py.

(** [df[c]] *)
Definition getitem (r : loc) (c : string) : M Series :=
  (let* df := deref r in
   match lookup_col c (cols df) with
   | Some v => ret v
   | None => raise (KeyError c)
   end)%py.

(** [df[c] = v] *)
Definition setitem (r : loc) (c : string) (v : Series) : M unit :=
  (let* df := deref r in
   if decide (length v = nrows df)
   then λ w, (inr (), set_heap (<[r := mkDataFrame (nrows df) (set_col c v (cols df))]> (heap w)) w)
   else raise LengthMismatch)%py.

(** [df.drop(names, axis=1, inplace=True, errors='ignore')] *)
Definition drop (r : loc) (names : list string) : M unit :=
  (let* df := deref r in
   λ w, (inr (), set_heap (<[r := mkDataFrame (nrows df) (drop_cols names (cols df))]> (heap w)) w))%py.

(** ** The artifacts loaded by [load_artifacts] *)

(** [models/fraud_detection_model.pkl], [models/scaler.pkl],
    [models/diagnosis_encoder.pkl] and [models/fraud_encoder.pkl] are not part
    of the sources. The classifier is an [XGBClassifier]: the number of features
    it was trained on, and any function from a frame of that many numeric
    columns to class indices that may raise with a message; the scaler is a
    (mean, scale) pair for each of the three numeric columns; the two label
    encoders are their class lists. *)
Record artifacts := mkArtifacts {
  n_features : nat;
  model_predict : DataFrame → string + list nat;
  scaler_age : Q * Q;
  scaler_amount_billed : Q * Q;
  scaler_length_of_stay : Q * Q;
  diagnosis_classes : list string;
  fraud_classes : list string
}.

Fixpoint mapE {A B} (f : A → exn + B) (l : list A) : exn + list B :=
  match l with
  | [] => inr []
  | x :: l' =>
      match f x with
      | inl e => inl e
      | inr y => match mapE f l' with
                 | inl e => inl e
                 | inr ys => inr (y :: ys)
                 end
      end
  end.

Fixpoint index_of (s : string) (classes : list string) : option nat :=
  match classes with
  | [] => None
  | c :: classes' =>
      if decide (c = s) then Some 0%nat else S <$> index_of s classes'
  end.

(** Modelled from the spec: [LabelEncoder.transform] of the diagnosis encoder,
    an artifact outside the sources (§4.2 item 4): a value of the vocabulary is
    replaced by its code, the first value outside it raises the error that
    names it; there is no bucket for unknown values. *)
Definition encode_label (classes : list string) (c : cell) : exn + cell :=
  match c with
  | Str s => match index_of s classes with
             | Some i => inr (Num (inject_Z (Z.of_nat i)))
             | None => inl (UnseenLabel c)
             end
  | _ => inl (UnseenLabel c)
  end.

Definition label_transform (classes : list string) (y : Series) : exn + Series :=
  mapE (encode_label classes) y.

(** [LabelEncoder.inverse_transform] of the fraud encoder (§4.3): a class index
    is replaced by its label, an index outside the class list raises. *)
Definition decode_label (classes : list string) (i : nat) : exn + string :=
  match classes !! i with
  | Some s => inr s
  | None => inl (UnseenLabel (Num (inject_Z (Z.of_nat i))))
  end.

Definition label_inverse_transform (classes : list string) (y : list nat)
  : exn + list string :=
  mapE (decode_label classes) y.

(** [StandardScaler.transform] on one column (§4.2 item 5):
    (value − mean) / scale; a missing value stays missing. *)
Definition scale_cell (p : Q * Q) (c : cell) : cell :=
  match c with
  | Num q => Num (Qred ((q - p.1) / p.2))
  | _ => NaN
  end.

Definition standardize (p : Q * Q) (c : cell) : exn + cell :=
  match c with
  | Num _ | NaN => inr (scale_cell p c)
  | _ => inl NotNumeric
  end.

(** [scaler.transform(df[num_cols])]: the three columns are converted to
    floats, which fails on a value that is not a number; a table without rows
    is refused ("Found array with 0 sample(s) ... while a minimum of 1 is
    required by StandardScaler"); then each column is standardized with its
    own mean and scale. *)
Definition scaler_transform (art : artifacts) (age amount stay : Series)
  : exn + (Series * Series * Series) :=
  match mapE (standardize (scaler_age art)) age with
  | inl e => inl e
  | inr age' =>
      match mapE (standardize (scaler_amount_billed art)) amount with
      | inl e => inl e
      | inr amount' =>
          match mapE (standardize (scaler_length_of_stay art)) stay with
          | inl e => inl e
          | inr stay' =>
              if decide (length age = 0%nat) then inl EmptySamples
              else inr (age', amount', stay')
          end
      end
  end.

Definition is_numeric (c : cell) : bool :=
  match c with Num _ | NaN => true | _ => false end.

(** A column that pandas holds as floats: numbers and missing values only. A
    column with a text or a date in it has dtype object or datetime64. *)
Definition float_dtype (s : Series) : bool := forallb is_numeric s.

(** [model.predict(X)] of the [XGBClassifier]: XGBoost refuses a frame with a
    column that is not numeric ("DataFrame.dtypes for data must be int, float,
    bool or category") and a frame whose number of columns is not the number
    of features of the model ("Feature shape mismatch"); otherwise the trees
    are evaluated. *)
Definition predict (art : artifacts) (X : DataFrame) : exn + list nat :=
  if forallb (λ c, float_dtype c.2) (cols X) then
    if decide (length (cols X) = n_features art) then
      match model_predict art X with
      | inl msg => inl (ModelError msg)
      | inr y_pred => inr y_pred
      end
    else inl (ModelError "Feature shape mismatch")
  else inl (ModelError "DataFrame.dtypes for data must be int, float, bool or category").

(** ** [preprocess_data] and [make_predictions] *)

Definition ns_per_day : Z := 86400 * 10 ^ 9.

(** [pd.Series.map({'Male': 1, 'Female': 0})]: a value that is not a key of the
    dictionary is mapped to NaN. *)
Definition map_gender (c : cell) : cell :=
  match c with
  | Str s => if decide (s = "Male") then Num 1
             else if decide (s = "Female") then Num 0
             else NaN
  | _ => NaN
  end.

(** [(discharged - admitted).dt.days]: the days component of a Timedelta is the
    floor of the difference over one day. *)
Definition days_between (admitted discharged : cell) : cell :=
  match admitted, discharged with
  | Timestamp a, Timestamp d => Num (inject_Z ((d - a) `div` ns_per_day))
  | _, _ => NaN
  end.

Section Pipeline.

(** [pd.to_datetime] on one value, with the time in nanoseconds since the
    epoch; [None] is what [errors='coerce'] turns into NaT. *)
Variable parse_datetime : cell → option Z.
Variable art : artifacts.

Definition to_datetime (s : Series) : Series :=
  (λ c, match parse_datetime c with
        | Some t => Timestamp t
        | None => NaN
        end) <$> s.

Definition preprocess_data (df : loc) : M loc :=
  (let* df := df_copy df in
   let* admitted := getitem df "Date Admitted" in
   setitem df "Date Admitted" (to_datetime admitted) ;;
   let* discharged := getitem df "Date Discharged" in
   setitem df "Date Discharged" (to_datetime discharged) ;;
   let* admitted := getitem df "Date Admitted" in
   let* discharged := getitem df "Date Discharged" in
   if existsb isnull admitted || existsb isnull discharged
   then raise InvalidDateFormat
   else
     setitem df "Length of Stay" (zip_with days_between admitted discharged) ;;
     drop df ["Patient ID"; "Date Admitted"; "Date Discharged"] ;;
     let* gender := getitem df "Gender" in
     setitem df "Gender" (map_gender <$> gender) ;;
     let* diagnosis := getitem df "Diagnosis" in
     let* codes := lift (label_transform (diagnosis_classes art) diagnosis) in
     setitem df "Diagnosis" codes ;;
     let* age := getitem df "Age" in
     let* amount := getitem df "Amount Billed" in
     let* stay := getitem df "Length of Stay" in
     let* scaled := lift (scaler_transform art age amount stay) in
     setitem df "Age" scaled.1.1 ;;
     setitem df "Amount Billed" scaled.1.2 ;;
     setitem df "Length of Stay" scaled.2 ;;
     ret df)%py.

Definition make_predictions (df : loc) : M (list string) :=
  (let* processed_df := preprocess_data df in
   let* X := deref processed_df in
   let* y_pred := lift (predict art X) in
   lift (label_inverse_transform (fraud_classes art) y_pred))%py.

End Pipeline.

(** ** Integers on their way into and out of sqlite3 *)

(** A count is a Python [int] ([len]) or a [numpy.int64] (the [sum] of a
    boolean Series, and anything computed from it). *)
Inductive pyint :=
| PyInt (n : Z)
| NpInt64 (n : Z).

Definition wrap64 (z : Z) : Z := (z + 2 ^ 63) `mod` 2 ^ 64 - 2 ^ 63.

Definition py_value (x : pyint) : Z :=
  match x with PyInt n => n | NpInt64 n => n end.

(** [total_count - fraud_count], an [int] minus a [numpy.int64]. *)
Definition py_sub (x y : pyint) : pyint :=
  match x, y with
  | PyInt a, PyInt b => PyInt (a - b)
  | _, _ => NpInt64 (wrap64 (py_value x - py_value y))
  end.

Definition byte_of_Z (z : Z) : Byte.byte :=
  default Byte.x00 (Byte.of_N (Z.to_N (z `mod` 256))).

Fixpoint to_bytes_little (n : nat) (z : Z) : list Byte.byte :=
  match n with
  | O => []
  | S n' => byte_of_Z z :: to_bytes_little n' (z `div` 256)
  end.

(** [int.from_bytes(value, byteorder='little')] *)
Fixpoint from_bytes_little (bs : list Byte.byte) : Z :=
  match bs with
  | [] => 0
  | b :: bs' => Z.of_N (Byte.to_N b) + 256 * from_bytes_little bs'
  end.

(** How sqlite3 binds a parameter: an [int] as INTEGER; a [numpy.int64] is not
    an [int], it is bound through the buffer protocol as the BLOB of its eight
    bytes in machine order (two's complement, little-endian). *)
Definition sqlite_bind (x : pyint) : sqlval :=
  match x with
  | PyInt n => SqlInt n
  | NpInt64 n => SqlBlob (to_bytes_little 8 (n `mod` 2 ^ 64))
  end.

Definition to_int_if_bytes (value : sqlval) : Z :=
  match value with
  | SqlBlob bs => from_bytes_little bs
  | SqlNull => 0
  | SqlInt n => n
  end.

(** The summary of a dataset as the tab "Results & Analytics" reads it. *)
Record Summary := mkSummary {
  total_cases : Z;
  fraud_count : Z;
  non_fraud_count : Z
}.

#[global] Instance Summary_eq_dec : EqDecision Summary.
Proof. solve_decision. Defined.

Definition read_summary (pred_data : prediction_row) : Summary :=
  {| total_cases := to_int_if_bytes (pr_total_cases pred_data);
     fraud_count := to_int_if_bytes (pr_fraud_count pred_data);
     non_fraud_count := to_int_if_bytes (pr_non_fraud_count pred_data) |}.

(** ** The upload tab of [hospital_dashboard] *)

Definition required_columns : list string :=
  ["Patient ID"; "Date Admitted"; "Date Discharged";
   "Age"; "Gender"; "Diagnosis"; "Amount Billed"].

(** [(series != "No Fraud").sum()] *)
Definition is_fraud (c : cell) : bool := bool_decide (c ≠ Str "No Fraud").

Definition count_fraud (prediction : Series) : nat :=
  length (filter (λ c, is_fraud c = true) prediction).

Inductive outcome :=
| MissingColumns (missing : list string)   (* st.error("Missing columns: ...") *)
| FileUploaded                             (* the button was not pressed *)
| ProcessingError (e : exn)                (* st.error("Error during processing: ...") *)
| AnalysisCompleted (total : Z) (fraud : Z).

(** The text of [st.error(f"Missing columns: {', '.join(missing)}")] *)
Definition missing_columns_message (missing : list string) : string :=
  "Missing columns: " +:+ String.concat ", " missing.

Definition set_files (f : gmap string DataFrame) (w : world) : world :=
  mkWorld (heap w) f (conn w) (disk w).

Definition set_conn (d : database) (w : world) : world :=
  mkWorld (heap w) (files w) d (disk w).

(** [pd.read_csv]: the parsed file is a new frame. *)
Definition read_csv (content : DataFrame) : M loc :=
  λ w, let r := fresh (dom (heap w)) in
       (inr r, set_heap (<[r := content]> (heap w)) w).

Section Upload.

Variable parse_datetime : cell → option Z.
Variable art : artifacts.

(** The storage steps that fail in this run (disk full, database locked):
    a failing step raises and writes nothing. *)
Variable fault : storage_step → bool.

Definition guard (s : storage_step) : M unit :=
  if fault s then raise (StorageError s) else ret ().

(** [df.to_csv(path, index=False)] *)
Definition to_csv (s : storage_step) (r : loc) (path : string) : M unit :=
  (let* df := deref r in
   guard s ;;
   λ w, (inr (), set_files (<[path := df]> (files w)) w))%py.

(** [INSERT INTO datasets ...] followed by [c.lastrowid] *)
Definition insert_dataset (hospital_id : nat) (upload_date data_path pred_path : string)
  : M nat :=
  (guard InsertDataset ;;
   λ w, let d := conn w in
        let id := S (seq_datasets d) in
        (inr id,
         set_conn
           (mkDatabase
              (datasets d ++ [mkDataset id hospital_id upload_date data_path pred_path])
              (predictions d) id (seq_predictions d)) w))%py.

(** [INSERT INTO predictions ...] *)
Definition insert_summary (dataset_id : nat) (total fraud non_fraud : pyint) : M unit :=
  (guard InsertSummary ;;
   λ w, let d := conn w in
        let id := S (seq_predictions d) in
        (inr (),
         set_conn
           (mkDatabase
              (datasets d)
              (predictions d ++
                 [mkPrediction id dataset_id (sqlite_bind total)
                    (sqlite_bind fraud) (sqlite_bind non_fraud)])
              (seq_datasets d) id) w))%py.

(** [conn.commit()] *)
Definition commit : M unit :=
  (guard Commit ;;
   λ w, (inr (), mkWorld (heap w) (files w) (conn w) (conn w)))%py.

Definition data_path_of (user_id : nat) (timestamp : string) : string :=
  "data/" +:+ pretty user_id +:+ "_" +:+ timestamp +:+ ".csv".

Definition pred_path_of (user_id : nat) (timestamp : string) : string :=
  "results/" +:+ pretty user_id +:+ "_" +:+ timestamp +:+ ".csv".

(** The body of the inner [try] of the upload tab. [timestamp] and
    [upload_date] are the two readings of [datetime.now()]. *)
Definition run_fraud_detection (user_id : nat) (timestamp upload_date : string)
    (df_original : loc) : M (Z * Z) :=
  (let* predictions := make_predictions parse_datetime art df_original in
   let* df_predicted := df_copy df_original in
   setitem df_predicted "Prediction" (Str <$> predictions) ;;
   let* prediction := getitem df_predicted "Prediction" in
   let fraud_count := NpInt64 (wrap64 (Z.of_nat (count_fraud prediction))) in
   let* df := deref df_predicted in
   let total_count := PyInt (Z.of_nat (nrows df)) in
   let data_path := data_path_of user_id timestamp in
   let pred_path := pred_path_of user_id timestamp in
   to_csv WriteData df_original data_path ;;
   to_csv WritePredictions df_predicted pred_path ;;
   let* dataset_id := insert_dataset user_id upload_date data_path pred_path in
   insert_summary dataset_id total_count fraud_count (py_sub total_count fraud_count) ;;
   commit ;;
   ret (py_value total_count, py_value fraud_count))%py.

(** The upload tab once a file has been chosen: [uploaded] is what
    [pd.read_csv] makes of it, [run] tells whether the button
    "Run Fraud Detection" is pressed. *)
Definition upload_tab (user_id : nat) (timestamp upload_date : string)
    (run : bool) (uploaded : DataFrame) (w : world) : outcome * world :=
  match read_csv uploaded w with
  | (inl e, w1) => (ProcessingError e, w1)
  | (inr df_original, w1) =>
      let missing :=
        filter (λ col, col ∉ columns uploaded) required_columns in
      if decide (missing ≠ []) then (MissingColumns missing, w1)
      else if run then
        match run_fraud_detection user_id timestamp upload_date df_original w1 with
        | (inl e, w2) => (ProcessingError e, w2)
        | (inr (total, fraud), w2) => (AnalysisCompleted total fraud, w2)
        end
      else (FileUploaded, w1)
  end.

End Upload.

(** ** The national analytics tab of [admin_dashboard] *)

(** The column names of several frames, each once, in order of first
    appearance. *)
Definition union_columns (fs : list DataFrame) : list string :=
  foldl (λ acc c, if decide (c ∈ acc) then acc else acc ++ [c]) []
        (mjoin (columns <$> fs)).

(** The part of column [c] that frame [f] contributes to a concatenation:
    its own cells, or one NaN per row where it has no such column. *)
Definition column_or_nan (c : string) (f : DataFrame) : Series :=
  default (replicate (nrows f) NaN) (lookup_col c (cols f)).

(** [pd.concat(frames, ignore_index=True)] *)
Definition pd_concat (fs : list DataFrame) : DataFrame :=
  mkDataFrame (sum_list (nrows <$> fs))
    ((λ c, (c, mjoin (column_or_nan c <$> fs))) <$> union_columns fs).

Fixpoint distinct (s : Series) : Series :=
  match s with
  | [] => []
  | c :: s' => c :: filter (λ c', c' ≠ c) (distinct s')
  end.

Definition occurrences (v : cell) (s : Series) : nat :=
  length (filter (λ c, c = v) s).

(** [series.value_counts()]: the distinct values that are not NaN, each with
    the number of its occurrences. pandas lists them by descending count; here
    they come in order of first appearance, the pairs are the same. *)
Definition value_counts (s : Series) : list (cell * nat) :=
  let present := filter (λ c, isnull c = false) s in
  (λ v, (v, occurrences v present)) <$> distinct present.

Inductive national_view :=
| NoDataFiles             (* "No data files found for national fraud analysis." *)
| NoPredictionColumn      (* "No 'Prediction' column found in combined data." *)
| NoDataAvailable         (* "No data available for analysis." *)
| Overview (total fraud non_fraud : Z) (breakdown : list (cell * nat)).

(** The analysis of the frames that were read. *)
Definition national_overview (all_frames : list DataFrame) : national_view :=
  match all_frames with
  | [] => NoDataFiles
  | _ =>
      let combined_df := pd_concat all_frames in
      match lookup_col "Prediction" (cols combined_df) with
      | None => NoPredictionColumn
      | Some prediction =>
          let total_cases := Z.of_nat (nrows combined_df) in
          let total_fraud := Z.of_nat (count_fraud prediction) in
          if decide (total_cases > 0)
          then Overview total_cases total_fraud (total_cases - total_fraud)
                        (value_counts prediction)
          else NoDataAvailable
      end
  end.

(** [path and os.path.exists(path)], then [pd.read_csv(path)] *)
Definition read_if_exists (w : world) (path : string) : option DataFrame :=
  if decide (path = "") then None else files w !! path.

Definition national_analytics (w : world) : national_view :=
  let all_paths := ds_predictions_path <$> datasets (conn w) in
  national_overview (omap (read_if_exists w) all_paths).

(** ** Summaries *)

(** The three counts the upload derives from a table of predictions. *)
Definition batch_summary (df_predicted : DataFrame) : Summary :=
  let total := Z.of_nat (nrows df_predicted) in
  let fraud :=
    Z.of_nat (count_fraud (default [] (lookup_col "Prediction" (cols df_predicted)))) in
  {| total_cases := total; fraud_count := fraud; non_fraud_count := total - fraud |}.

(** The table of predictions of an upload: the uploaded frame with the labels
    assigned to its column "Prediction". *)
Definition with_predictions (df : DataFrame) (labels : list string) : DataFrame :=
  mkDataFrame (nrows df) (set_col "Prediction" (Str <$> labels) (cols df)).

Definition summary_add (a b : Summary) : Summary :=
  {| total_cases := total_cases a + total_cases b;
     fraud_count := fraud_count a + fraud_count b;
     non_fraud_count := non_fraud_count a + non_fraud_count b |}.

Definition summary_zero : Summary :=
  {| total_cases := 0; fraud_count := 0; non_fraud_count := 0 |}.

Definition summary_sum (l : list Summary) : Summary :=
  foldr summary_add summary_zero l.

(** A batch as the upload writes it: a frame whose column "Prediction" holds
    one label per row. *)
Definition is_label (c : cell) : bool :=
  match c with Str _ => true | _ => false end.

Definition is_batch (f : DataFrame) : bool :=
  match lookup_col "Prediction" (cols f) with
  | Some labels => bool_decide (length labels = nrows f) && forallb is_label labels
  | None => false
  end.

(** ** The processed frame, as a value *)

(** What [preprocess_data] leaves in its copy when no step raises, written as a
    function of the frame it is given: the columns it reads, and the
    assignments of the function body in their order on the list of columns. *)
Definition processed_frame (parse_datetime : cell → option Z) (art : artifacts)
    (df : DataFrame) : DataFrame :=
  let column c := default [] (lookup_col c (cols df)) in
  let admitted := to_datetime parse_datetime (column "Date Admitted") in
  let discharged := to_datetime parse_datetime (column "Date Discharged") in
  let stay := zip_with days_between admitted discharged in
  let codes :=
    match label_transform (diagnosis_classes art) (column "Diagnosis") with
    | inr codes => codes
    | inl _ => []
    end in
  mkDataFrame (nrows df)
    (set_col "Length of Stay" (scale_cell (scaler_length_of_stay art) <$> stay)
       (set_col "Amount Billed"
          (scale_cell (scaler_amount_billed art) <$> column "Amount Billed")
          (set_col "Age" (scale_cell (scaler_age art) <$> column "Age")
             (set_col "Diagnosis" codes
                (set_col "Gender" (map_gender <$> column "Gender")
                   (drop_cols ["Patient ID"; "Date Admitted"; "Date Discharged"]
                      (set_col "Length of Stay" stay
                         (set_col "Date Discharged" discharged
                            (set_col "Date Admitted" admitted (cols df)))))))))).

(** The columns that the classifier is given for a table that has the required
    columns and no other. *)
Definition feature_columns : list string :=
  ["Age"; "Gender"; "Diagnosis"; "Amount Billed"; "Length of Stay"].

(** ** The storage steps of an upload, in their order *)

Definition step_index (s : storage_step) : nat :=
  match s with
  | WriteData => 0
  | WritePredictions => 1
  | InsertDataset => 2
  | InsertSummary => 3
  | Commit => 4
  end.

(** Step [s'] comes before step [s]. *)
Definition earlier (s' s : storage_step) : bool :=
  (step_index s' <? step_index s)%nat.

(** The database after the INSERT into [datasets]. *)
Definition with_dataset (d : database) (hospital_id : nat)
    (upload_date data_path pred_path : string) : database :=
  mkDatabase
    (datasets d ++
       [mkDataset (S (seq_datasets d)) hospital_id upload_date data_path pred_path])
    (predictions d) (S (seq_datasets d)) (seq_predictions d).

(** The database after the INSERT into [predictions]. *)
Definition with_summary (d : database) (dataset_id : nat) (total fraud non_fraud : pyint)
  : database :=
  mkDatabase (datasets d)
    (predictions d ++
       [mkPrediction (S (seq_predictions d)) dataset_id (sqlite_bind total)
          (sqlite_bind fraud) (sqlite_bind non_fraud)])
    (seq_datasets d) (S (seq_predictions d)).

(** The count of fraud cases that the upload binds for its labels. *)
Definition fraud_value (labels : list string) : pyint :=
  NpInt64 (wrap64 (Z.of_nat (count_fraud (Str <$> labels)))).

(** The files once the storage steps before [s] have run. *)
Definition files_written (s : storage_step) (user_id : nat) (timestamp : string)
    (df : DataFrame) (labels : list string) (f : gmap string DataFrame)
  : gmap string DataFrame :=
  let f1 := if earlier WriteData s
            then <[data_path_of user_id timestamp := df]> f else f in
  if earlier WritePredictions s
  then <[pred_path_of user_id timestamp := with_predictions df labels]> f1 else f1.

(** The connection once the storage steps before [s] have run. *)
Definition rows_inserted (s : storage_step) (user_id : nat)
    (timestamp upload_date : string) (df : DataFrame) (labels : list string)
    (d : database) : database :=
  let total := PyInt (Z.of_nat (nrows df)) in
  let d1 := if earlier InsertDataset s
            then with_dataset d user_id upload_date (data_path_of user_id timestamp)
                   (pred_path_of user_id timestamp)
            else d in
  if earlier InsertSummary s
  then with_summary d1 (S (seq_datasets d)) total (fraud_value labels)
         (py_sub total (fraud_value labels))
  else d1.

(** Two views that show the same, the pairs of the breakdown in any order. *)
Definition same_view (v1 v2 : national_view) : Prop :=
  match v1, v2 with
  | Overview t1 f1 n1 b1, Overview t2 f2 n2 b2 =>
      t1 = t2 ∧ f1 = f2 ∧ n1 = n2 ∧ b1 ≡ₚ b2
  | _, _ => v1 = v2
  end.

(** ** [execute_with_retry] and [add_new_admin] of [new.py] *)

Definition RETRY_ATTEMPTS : nat := 5.

(** What one pass through the [try] comes to: [cursor.execute] and
    [conn.commit] both succeed, or one of them raises. *)
Inductive attempt :=
| Succeeds
| RaisesLocked          (* sqlite3.OperationalError with "locked" in its text *)
| RaisesOperational     (* any other sqlite3.OperationalError *)
| RaisesIntegrity.      (* sqlite3.IntegrityError *)

#[global] Instance attempt_eq_dec : EqDecision attempt.
Proof. solve_decision. Defined.

Inductive retry_outcome :=
| Returned
| Reraised (a : attempt)  (* the exception of the attempt, passed on *)
| StillLocked.            (* Exception("Database still locked after retries") *)

(** The console of the script: the attempts made and the seconds slept. *)
Record retry_log := mkRetryLog {
  attempts_made : nat;
  seconds_slept : nat
}.

(** The [for] loop with [remaining] iterations to go; [outcome_of] tells what
    the attempt with a given number comes to. *)
Fixpoint retry_loop (remaining : nat) (outcome_of : nat → attempt) (log : retry_log)
  : retry_outcome * retry_log :=
  match remaining with
  | O => (StillLocked, log)
  | S remaining' =>
      let log' := mkRetryLog (S (attempts_made log)) (seconds_slept log) in
      match outcome_of (attempts_made log) with
      | Succeeds => (Returned, log')
      | RaisesLocked =>
          retry_loop remaining' outcome_of
            (mkRetryLog (S (attempts_made log)) (S (seconds_slept log)))
      | a => (Reraised a, log')
      end
  end.

Definition execute_with_retry (outcome_of : nat → attempt) : retry_outcome * retry_log :=
  retry_loop RETRY_ATTEMPTS outcome_of (mkRetryLog 0 0).

Inductive admin_message :=
| AdminAdded             (* "New admin '...' added successfully!" *)
| NameExists             (* "Error: A hospital with this name already exists." *)
| DatabaseError.         (* "Database error: ..." *)

(** What [add_new_admin] prints once the name and the password are read. *)
Definition add_new_admin (outcome_of : nat → attempt) : admin_message :=
  match (execute_with_retry outcome_of).1 with
  | Returned => AdminAdded
  | Reraised RaisesIntegrity => NameExists
  | _ => DatabaseError
  end.

(** ** Vocabulary of the statements *)

(** [w'] differs from [w] at most in the frame at [r]. *)
Definition agree_off (r : loc) (w w' : world) : Prop :=
  store_of w' = store_of w ∧ ∀ l, l ≠ r → heap w' !! l = heap w !! l.

(** [w'] has every frame of [w] as it was, and the same store. *)
Definition preserves (w w' : world) : Prop :=
  store_of w' = store_of w ∧ ∀ l df, heap w !! l = Some df → heap w' !! l = Some df.

Definition local_to (r : loc) {A} (m : M A) : Prop := ∀ w, agree_off r w (m w).2.

Definition preserving {A} (m : M A) : Prop := ∀ w, preserves w (m w).2.

(** A computation that, when it returns, returns [x]. *)
Definition yields {A} (x : A) (m : M A) : Prop :=
  ∀ w y w', m w = (inr y, w') → y = x.

(** A computation that raises no storage error. *)
Definition storage_free {A} (m : M A) : Prop :=
  ∀ w e w', m w = (inl e, w') → ∀ s, e ≠ StorageError s.

(** [s] occurs in the text [t]. *)
Definition occurs_in (s t : string) : Prop :=
  ∃ before after, t = before +:+ s +:+ after.

(** A date that [pd.to_datetime] can read. *)
Definition parses (parse_datetime : cell → option Z) (c : cell) : Prop :=
  is_Some (parse_datetime c).

Definition in_vocabulary (classes : list string) (c : cell) : Prop :=
  ∃ s, c = Str s ∧ s ∈ classes.

Definition numeric (c : cell) : Prop :=
  match c with Num _ | NaN => True | _ => False end.

(** A table that passes validation: it has the required columns, each with one
    cell per row, and every cell of its two date columns is a date that
    [pd.to_datetime] can read. *)
Definition has_column (df : DataFrame) (c : string) : bool :=
  match lookup_col c (cols df) with
  | Some s => bool_decide (length s = nrows df)
  | None => false
  end.

Definition column_all (P : cell → bool) (df : DataFrame) (c : string) : bool :=
  match lookup_col c (cols df) with
  | Some s => forallb P s
  | None => false
  end.

Definition validated (parse_datetime : cell → option Z) (df : DataFrame) : bool :=
  forallb (has_column df) required_columns
  && column_all (λ c, bool_decide (parses parse_datetime c)) df "Date Admitted"
  && column_all (λ c, bool_decide (parses parse_datetime c)) df "Date Discharged".



(** [fraud_encoder.inverse_transform(model.predict(X))] *)
Definition classify (art : artifacts) (X : DataFrame) : exn + list string :=
  match predict art X with
  | inl e => inl e
  | inr y_pred => label_inverse_transform (fraud_classes art) y_pred
  end.

(** The stays of a table in days, from its two date columns. *)
Definition stay_days (parse_datetime : cell → option Z) (admitted discharged : Series)
  : Series :=
  zip_with days_between (to_datetime parse_datetime admitted)
           (to_datetime parse_datetime discharged).

(** ** A concrete instance, for running the pipeline *)

Module Demo.

(** Days from 1970-01-01 to a civil date of the Gregorian calendar. *)
Definition days_from_civil (y m d : Z) : Z :=
  let y' := if decide (m ≤ 2) then y - 1 else y in
  let era := y' `div` 400 in
  let yoe := y' - era * 400 in
  let mp := if decide (m ≤ 2) then m + 9 else m - 3 in
  let doy := (153 * mp + 2) `div` 5 + d - 1 in
  let doe := yoe * 365 + yoe `div` 4 - yoe `div` 100 + doy in
  era * 146097 + doe - 719468.

Definition days_in_month (y m : Z) : Z :=
  if decide (m = 2) then
    if decide (y `mod` 4 = 0 ∧ (y `mod` 100 ≠ 0 ∨ y `mod` 400 = 0)) then 29 else 28
  else if decide (m = 4 ∨ m = 6 ∨ m = 9 ∨ m = 11) then 30 else 31.

Definition digit (a : Ascii.ascii) : option Z :=
  let n := Z.of_N (Ascii.N_of_ascii a) in
  if decide (48 ≤ n ≤ 57) then Some (n - 48) else None.

Definition is_dash (a : Ascii.ascii) : Prop := Ascii.N_of_ascii a = 45%N.

Fixpoint number (acc : Z) (l : list Ascii.ascii) : option Z :=
  match l with
  | [] => Some acc
  | a :: l' => match digit a with
               | Some d => number (10 * acc + d) l'
               | None => None
               end
  end.

(** The part of [pd.to_datetime] used here: a string "YYYY-MM-DD" that names
    a day of the calendar is midnight of that day; anything else is NaT. *)
Definition iso_date (c : cell) : option Z :=
  match c with
  | Str s =>
      match String.list_ascii_of_string s with
      | [y1; y2; y3; y4; s1; m1; m2; s2; d1; d2] =>
          match number 0 [y1; y2; y3; y4], number 0 [m1; m2], number 0 [d1; d2] with
          | Some y, Some m, Some d =>
              if decide (is_dash s1 ∧ is_dash s2
                         ∧ 1 ≤ m ≤ 12 ∧ 1 ≤ d ≤ days_in_month y m)
              then Some (days_from_civil y m d * ns_per_day)
              else None
          | _, _, _ => None
          end
      | _ => None
      end
  | _ => None
  end.

Definition cell_gt (c : cell) (bound : Q) : bool :=
  match c with
  | Num q => match (q ?= bound)%Q with Gt => true | _ => false end
  | _ => false
  end.

(** A stand-in for the trees of the classifier, trained on the five features
    under their names: class 0 for a row whose scaled amount exceeds one
    standard deviation, class 1 otherwise; a frame with other columns is
    refused. *)
Definition threshold_model (X : DataFrame) : string + list nat :=
  if decide (columns X = feature_columns) then
    match lookup_col "Amount Billed" (cols X) with
    | Some amount => inr ((λ c, if cell_gt c 1 then 0%nat else 1%nat) <$> amount)
    | None => inl "feature_names mismatch"
    end
  else inl "feature_names mismatch".

Definition art : artifacts :=
  {| n_features := 5;
     model_predict := threshold_model;
     scaler_age := (40, 10)%Q;
     scaler_amount_billed := (1000, 500)%Q;
     scaler_length_of_stay := (3, 2)%Q;
     diagnosis_classes := ["Fracture"; "Malaria"; "Typhoid"];
     fraud_classes := ["Billing Fraud"; "No Fraud"] |}.

Definition no_fault : storage_step → bool := λ _, false.

Definition empty_db : database := mkDatabase [] [] 0 0.

Definition w0 : world := mkWorld ∅ ∅ empty_db empty_db.

Definition record (id admitted discharged : string) (age : Z) (gender diagnosis : string)
    (amount : Z) : list cell :=
  [Str id; Str admitted; Str discharged; Num (inject_Z age); Str gender;
   Str diagnosis; Num (inject_Z amount)].

(** A frame from its header and its rows. *)
Definition frame_of_rows (header : list string) (rows : list (list cell)) : DataFrame :=
  mkDataFrame (length rows)
    (imap (λ i c, (c, (λ row, default NaN (row !! i)) <$> rows)) header).

Definition three_visits : DataFrame :=
  frame_of_rows required_columns
    [record "P1" "2024-01-03" "2024-01-05" 34 "Male" "Malaria" 800;
     record "P2" "2024-01-10" "2024-01-12" 51 "Female" "Typhoid" 2500;
     record "P3" "2024-02-01" "2024-02-01" 27 "Female" "Fracture" 1200].


Definition gender_other : DataFrame :=
  frame_of_rows required_columns
    [record "P1" "2024-01-03" "2024-01-05" 34 "Other" "Malaria" 800;
     record "P2" "2024-01-10" "2024-01-12" 51 "Female" "Typhoid" 2500].

Definition unknown_diagnosis : DataFrame :=
  frame_of_rows required_columns
    [record "P1" "2024-01-03" "2024-01-05" 34 "Male" "Malaria" 800;
     record "P2" "2024-01-10" "2024-01-12" 51 "Female" "Gout" 2500].

Definition without_diagnosis : DataFrame :=
  frame_of_rows
    ["Patient ID"; "Date Admitted"; "Date Discharged"; "Age"; "Gender"; "Amount Billed"]
    [[Str "P1"; Str "2024-01-03"; Str "2024-01-05"; Num 34; Str "Male"; Num 800]].

(** An upload that already has a column "Prediction". *)
Definition with_prediction_column : DataFrame :=
  frame_of_rows (required_columns ++ ["Prediction"])
    [record "P1" "2024-01-03" "2024-01-05" 34 "Male" "Malaria" 800 ++ [Str "reviewed"];
     record "P2" "2024-01-10" "2024-01-12" 51 "Female" "Typhoid" 2500 ++ [Str "reviewed"]].

(** An upload that has a column "Length of Stay" of its own. *)
Definition with_length_of_stay : DataFrame :=
  frame_of_rows (required_columns ++ ["Length of Stay"])
    [record "P1" "2024-01-03" "2024-01-05" 34 "Male" "Malaria" 800 ++ [Str "two nights"];
     record "P2" "2024-01-10" "2024-01-12" 51 "Female" "Typhoid" 2500 ++ [Str "two nights"]].

(** The second visit has no readable admission date. *)
Definition unreadable_date : DataFrame :=
  frame_of_rows required_columns
    [record "P1" "2024-01-03" "2024-01-05" 34 "Male" "Malaria" 800;
     record "P2" "10/01/2024" "2024-01-12" 51 "Female" "Typhoid" 2500].

(** A file that has the header and no record. *)
Definition header_only : DataFrame := frame_of_rows required_columns [].

(** A process that holds one frame, at location 0, and an empty store. *)
Definition holding (df : DataFrame) : world :=
  mkWorld {[ 0%nat := df ]} ∅ empty_db empty_db.

Definition fail_at (s : storage_step) : storage_step → bool :=
  λ s', bool_decide (s' = s).

(** The table of predictions of a batch with the given labels. *)
Definition batch_of (labels : list string) : DataFrame :=
  mkDataFrame (length labels)
    [("Patient ID", imap (λ i _, Num (inject_Z (Z.of_nat i))) labels);
     ("Prediction", Str <$> labels)].

(** Ten cases, two of them fraud. *)
Definition batch_a : DataFrame :=
  batch_of (replicate 8 "No Fraud" ++ ["Billing Fraud"; "Phantom Billing"]).

(** Five cases, one of them fraud. *)
Definition batch_b : DataFrame :=
  batch_of (replicate 4 "No Fraud" ++ ["Billing Fraud"]).

Definition run_upload (fault : storage_step → bool) (uploaded : DataFrame) (w : world)
  : outcome * world :=
  upload_tab iso_date art fault 7 "20240301120000" "2024-03-01 12:00:00" true uploaded w.

End Demo.

(** * Properties *)

(** ** Columns of a frame *)

Lemma lookup_col_set_col c c' v cs :
  lookup_col c (set_col c' v cs) = if decide (c' = c) then Some v else lookup_col c cs.
Proof.
  induction cs as [|[c0 v0] cs IH]; simpl; [done|].
  destruct (decide (c0 = c')) as [->|Hne]; simpl.
  - by destruct (decide (c' = c)).
  - rewrite IH. destruct (decide (c0 = c)) as [->|]; [by rewrite decide_False | done].
Qed.

Lemma lookup_col_drop_cols c names cs :
  lookup_col c (drop_cols names cs) = if decide (c ∈ names) then None else lookup_col c cs.
Proof.
  unfold drop_cols. induction cs as [|[c0 v0] cs IH]; simpl.
  - by case_decide.
  - rewrite filter_cons. simpl.
    destruct (decide (c0 ∉ names)) as [Hn|Hn]; simpl.
    + destruct (decide (c0 = c)) as [->|]; [by rewrite decide_False | done].
    + destruct (decide (c0 = c)) as [->|]; [|done].
      destruct (decide (c ∈ names)); [done | contradiction].
Qed.

Lemma lookup_col_None c cs : lookup_col c cs = None ↔ c ∉ cs.*1.
Proof.
  induction cs as [|[c0 v0] cs IH]; simpl.
  - split; [intros _; apply not_elem_of_nil | done].
  - destruct (decide (c0 = c)) as [->|Hne].
    + split; [done | intros []; left].
    + rewrite IH, not_elem_of_cons.
      split; [intros H; split; [congruence | done] | by intros [_ H]].
Qed.

Lemma set_col_fresh c v cs : c ∉ cs.*1 → set_col c v cs = cs ++ [(c, v)].
Proof.
  induction cs as [|[c0 v0] cs IH]; simpl; [done|].
  rewrite not_elem_of_cons. intros [Hne Hnot].
  case_decide; [congruence|]. by rewrite IH.
Qed.

Lemma set_col_columns c v cs : c ∈ cs.*1 → (set_col c v cs).*1 = cs.*1.
Proof.
  induction cs as [|[c0 v0] cs IH]; simpl.
  - by intros ?%elem_of_nil.
  - intros Hin. destruct (decide (c0 = c)) as [->|Hne]; [done|].
    simpl. f_equal. apply IH. apply elem_of_cons in Hin as [|]; [congruence | done].
Qed.



Lemma set_col_names c v cs names names' :
  cs.*1 = names →
  (if decide (c ∈ names) then names else names ++ [c]) = names' →
  (set_col c v cs).*1 = names'.
Proof.
  intros <- <-. destruct (decide (c ∈ cs.*1)) as [Hin|Hin].
  - by apply set_col_columns.
  - rewrite set_col_fresh by done. by rewrite fmap_app.
Qed.

Lemma drop_cols_names dropped cs names names' :
  cs.*1 = names → filter (λ c, c ∉ dropped) names = names' →
  (drop_cols dropped cs).*1 = names'.
Proof.
  intros <- <-. unfold drop_cols. induction cs as [|[c v] cs IH]; [done|].
  rewrite fmap_cons, !filter_cons. simpl.
  destruct (decide (c ∉ dropped)); [rewrite fmap_cons|]; by rewrite IH.
Qed.

(** The names of the columns after assignments and drops, from the names
    before them. *)
Ltac names_tac H :=
  first
    [ exact H
    | eapply set_col_names; [names_tac H | vm_compute; reflexivity]
    | eapply drop_cols_names; [names_tac H | vm_compute; reflexivity] ].

(** ** What a computation leaves untouched *)

Lemma agree_off_refl r w : agree_off r w w.
Proof. by split. Qed.

Lemma agree_off_trans r w1 w2 w3 :
  agree_off r w1 w2 → agree_off r w2 w3 → agree_off r w1 w3.
Proof.
  intros [Hs1 Hh1] [Hs2 Hh2]. split; [congruence|].
  intros l Hl. rewrite Hh2, Hh1; done.
Qed.

Lemma preserves_refl w : preserves w w.
Proof. by split. Qed.

Lemma preserves_trans w1 w2 w3 : preserves w1 w2 → preserves w2 w3 → preserves w1 w3.
Proof. intros [Hs1 Hh1] [Hs2 Hh2]. split; [congruence | eauto]. Qed.

Lemma local_ret r {A} (x : A) : local_to r (ret x).
Proof. intros w. apply agree_off_refl. Qed.

Lemma local_raise r {A} e : local_to r (@raise A e).
Proof. intros w. apply agree_off_refl. Qed.

Lemma local_lift r {A} (x : exn + A) : local_to r (lift x).
Proof. intros w. apply agree_off_refl. Qed.

Lemma local_bind r {A B} (m : M A) (k : A → M B) :
  local_to r m → (∀ x, local_to r (k x)) → local_to r (bind m k).
Proof.
  intros Hm Hk w. unfold bind. specialize (Hm w).
  destruct (m w) as [[e|x] w']; simpl in *; [done|].
  eapply agree_off_trans; [exact Hm | apply Hk].
Qed.

Lemma local_deref r r' : local_to r (deref r').
Proof. intros w. unfold deref. destruct (heap w !! r'); apply agree_off_refl. Qed.

Lemma local_getitem r r' c : local_to r (getitem r' c).
Proof.
  apply local_bind; [apply local_deref|]. intros df.
  destruct (lookup_col c (cols df)); [apply local_ret | apply local_raise].
Qed.

Lemma agree_off_insert r w df :
  agree_off r w (set_heap (<[r := df]> (heap w)) w).
Proof. split; [done|]. intros l Hl. simpl. by rewrite lookup_insert_ne. Qed.

Lemma local_setitem r c v : local_to r (setitem r c v).
Proof.
  apply local_bind; [apply local_deref|]. intros df.
  case_decide; [|apply local_raise]. intros w. apply agree_off_insert.
Qed.

Lemma local_drop r names : local_to r (drop r names).
Proof.
  apply local_bind; [apply local_deref|]. intros df w. apply agree_off_insert.
Qed.

Lemma preserving_ret {A} (x : A) : preserving (ret x).
Proof. intros w. apply preserves_refl. Qed.

Lemma preserving_lift {A} (x : exn + A) : preserving (lift x).
Proof. intros w. apply preserves_refl. Qed.

Lemma preserving_deref r : preserving (deref r).
Proof. intros w. unfold deref. destruct (heap w !! r); apply preserves_refl. Qed.

Lemma preserving_bind {A B} (m : M A) (k : A → M B) :
  preserving m → (∀ x, preserving (k x)) → preserving (bind m k).
Proof.
  intros Hm Hk w. unfold bind. specialize (Hm w).
  destruct (m w) as [[e|x] w']; simpl in *; [done|].
  eapply preserves_trans; [exact Hm | apply Hk].
Qed.

(** A computation that copies a frame and then works on the copy only leaves
    every frame that existed before as it was. *)
Lemma preserving_copy_then {A} r (k : loc → M A) :
  (∀ r', local_to r' (k r')) → preserving (bind (df_copy r) k).
Proof.
  intros Hk w. unfold bind, df_copy, bind, deref.
  destruct (heap w !! r) as [df|] eqn:Hr; simpl; [|apply preserves_refl].
  set (r' := fresh (dom (heap w))).
  destruct (Hk r' (set_heap (<[r' := df]> (heap w)) w)) as [Hs Hh].
  split; [by rewrite Hs|].
  intros l d Hl.
  assert (l ≠ r') as Hne.
  { intros ->. pose proof (is_fresh (dom (heap w))) as Hf.
    apply Hf. apply elem_of_dom. by exists d. }
  rewrite Hh by done. simpl. by rewrite lookup_insert_ne.
Qed.

Ltac local_tac :=
  repeat first
    [ apply local_ret | apply local_raise | apply local_lift
    | apply local_getitem | apply local_setitem | apply local_drop
    | apply local_deref
    | apply local_bind; [|intros ?]
    | match goal with |- local_to _ (if ?b then _ else _) => destruct b end ].

Section PipelineFacts.

Variable parse_datetime : cell → option Z.
Variable art : artifacts.

Lemma preprocess_data_preserving r : preserving (preprocess_data parse_datetime art r).
Proof. unfold preprocess_data. apply preserving_copy_then. intros r'. local_tac. Qed.

Lemma make_predictions_preserving r : preserving (make_predictions parse_datetime art r).
Proof.
  unfold make_predictions.
  apply preserving_bind; [apply preprocess_data_preserving|]. intros p.
  apply preserving_bind; [apply preserving_deref|]. intros X.
  apply preserving_bind; [apply preserving_lift|]. intros y.
  apply preserving_lift.
Qed.

Lemma decode_label_in_classes classes i s :
  decode_label classes i = inr s → s ∈ classes.
Proof.
  unfold decode_label. destruct (classes !! i) as [s'|] eqn:Hi; [|done].
  intros [= <-]. by eapply list_elem_of_lookup_2.
Qed.

Lemma label_inverse_transform_in_classes classes y labels :
  label_inverse_transform classes y = inr labels →
  Forall (λ s, s ∈ classes) labels.
Proof.
  unfold label_inverse_transform. revert labels.
  induction y as [|i y IH]; simpl; intros labels H.
  - injection H as <-. constructor.
  - destruct (decode_label classes i) as [|s] eqn:Hs; [done|].
    destruct (mapE (decode_label classes) y) as [|ss]; [done|].
    injection H as <-. constructor; [by eapply decode_label_in_classes | by apply IH].
Qed.

(** The labels that [make_predictions] returns are what the fraud encoder
    decodes from the output of the classifier on the processed frame. *)
Lemma make_predictions_decoded r w labels w' :
  make_predictions parse_datetime art r w = (inr labels, w') →
  ∃ processed X y,
    preprocess_data parse_datetime art r w = (inr processed, w')
    ∧ heap w' !! processed = Some X
    ∧ predict art X = inr y
    ∧ label_inverse_transform (fraud_classes art) y = inr labels
    ∧ Forall (λ s, s ∈ fraud_classes art) labels.
Proof.
  unfold make_predictions. unfold bind at 1.
  destruct (preprocess_data parse_datetime art r w) as [[e|p] w1]; [done|].
  unfold bind at 1, deref.
  destruct (heap w1 !! p) as [X|] eqn:HX; [|done].
  unfold bind, lift.
  destruct (predict art X) as [e|y] eqn:Hy; [done|].
  intros [= Hl <-]. exists p, X, y. split_and!; try done.
  by eapply label_inverse_transform_in_classes.
Qed.

End PipelineFacts.

(** ** Running the frame operations *)

Lemma bind_deref {B} r (k : DataFrame → M B) w df :
  heap w !! r = Some df → bind (deref r) k w = k df w.
Proof. intros H. unfold bind, deref. by rewrite H. Qed.

Lemma bind_df_copy {B} r (k : loc → M B) w df :
  heap w !! r = Some df →
  bind (df_copy r) k w
  = k (fresh (dom (heap w))) (set_heap (<[fresh (dom (heap w)) := df]> (heap w)) w).
Proof. intros H. unfold bind, df_copy, bind, deref. by rewrite H. Qed.

Lemma bind_getitem {B} r c (k : Series → M B) w df v :
  heap w !! r = Some df → lookup_col c (cols df) = Some v →
  bind (getitem r c) k w = k v w.
Proof. intros H Hc. unfold bind, getitem, bind, deref. by rewrite H, Hc. Qed.

Lemma bind_getitem_missing {B} r c (k : Series → M B) w df :
  heap w !! r = Some df → lookup_col c (cols df) = None →
  bind (getitem r c) k w = (inl (KeyError c), w).
Proof. intros H Hc. unfold bind, getitem, bind, deref. by rewrite H, Hc. Qed.

Lemma bind_setitem {B} r c v (k : unit → M B) w df :
  heap w !! r = Some df →
  bind (setitem r c v) k w
  = if decide (length v = nrows df)
    then k () (set_heap (<[r := mkDataFrame (nrows df) (set_col c v (cols df))]> (heap w)) w)
    else (inl LengthMismatch, w).
Proof.
  intros H. unfold bind, setitem, bind, deref. rewrite H. by case_decide.
Qed.

Lemma bind_drop {B} r names (k : unit → M B) w df :
  heap w !! r = Some df →
  bind (drop r names) k w
  = k () (set_heap (<[r := mkDataFrame (nrows df) (drop_cols names (cols df))]> (heap w)) w).
Proof. intros H. unfold bind, drop, bind, deref. by rewrite H. Qed.

Lemma bind_lift_inr {A B} (x : A) (k : A → M B) w : bind (lift (inr x)) k w = k x w.
Proof. done. Qed.

Lemma bind_lift_inl {A B} e (k : A → M B) w : bind (lift (inl e)) k w = (inl e, w).
Proof. done. Qed.

(** The same steps, read from a run that returned. *)
Lemma bind_getitem_inv {B} r c (k : Series → M B) w df y w' :
  heap w !! r = Some df →
  bind (getitem r c) k w = (inr y, w') →
  ∃ v, lookup_col c (cols df) = Some v ∧ k v w = (inr y, w').
Proof.
  intros H. unfold bind, getitem, bind, deref. rewrite H.
  destruct (lookup_col c (cols df)) as [v|]; [|done]. intros Hk. by exists v.
Qed.

Lemma bind_setitem_inv {B} r c v (k : unit → M B) w df y w' :
  heap w !! r = Some df →
  bind (setitem r c v) k w = (inr y, w') →
  length v = nrows df
  ∧ k () (set_heap (<[r := mkDataFrame (nrows df) (set_col c v (cols df))]> (heap w)) w)
    = (inr y, w').
Proof.
  intros H. rewrite (bind_setitem _ _ _ _ _ _ H). by case_decide.
Qed.

Lemma bind_lift_inv {A B} (x : exn + A) (k : A → M B) w y w' :
  bind (lift x) k w = (inr y, w') → ∃ a, x = inr a ∧ k a w = (inr y, w').
Proof. destruct x as [e|a]; [done|]. intros Hk. by exists a. Qed.

Lemma fresh_lookup_ne (h : gmap loc DataFrame) r df :
  h !! r = Some df → r ≠ fresh (dom h).
Proof.
  intros H ->. apply (is_fresh (dom h)). apply elem_of_dom. by exists df.
Qed.

Section UploadFacts.

Variable parse_datetime : cell → option Z.
Variable art : artifacts.
Variable fault : storage_step → bool.

Lemma bind_guard {B} s (k : unit → M B) w :
  bind (guard fault s) k w = if fault s then (inl (StorageError s), w) else k () w.
Proof. unfold bind, guard. by destruct (fault s). Qed.

Lemma bind_to_csv {B} s r path (k : unit → M B) w df :
  heap w !! r = Some df →
  bind (to_csv fault s r path) k w
  = if fault s then (inl (StorageError s), w)
    else k () (set_files (<[path := df]> (files w)) w).
Proof.
  intros H. unfold bind, to_csv, bind, deref, guard. rewrite H.
  by destruct (fault s).
Qed.

Lemma bind_insert_dataset {B} hospital_id upload_date data_path pred_path
    (k : nat → M B) w :
  bind (insert_dataset fault hospital_id upload_date data_path pred_path) k w
  = if fault InsertDataset then (inl (StorageError InsertDataset), w)
    else k (S (seq_datasets (conn w)))
           (set_conn
              (mkDatabase
                 (datasets (conn w) ++
                    [mkDataset (S (seq_datasets (conn w))) hospital_id upload_date
                       data_path pred_path])
                 (predictions (conn w)) (S (seq_datasets (conn w)))
                 (seq_predictions (conn w))) w).
Proof. unfold bind, insert_dataset, bind, guard. by destruct (fault InsertDataset). Qed.

Lemma bind_insert_summary {B} dataset_id total fraud non_fraud (k : unit → M B) w :
  bind (insert_summary fault dataset_id total fraud non_fraud) k w
  = if fault InsertSummary then (inl (StorageError InsertSummary), w)
    else k ()
           (set_conn
              (mkDatabase
                 (datasets (conn w))
                 (predictions (conn w) ++
                    [mkPrediction (S (seq_predictions (conn w))) dataset_id
                       (sqlite_bind total) (sqlite_bind fraud) (sqlite_bind non_fraud)])
                 (seq_datasets (conn w)) (S (seq_predictions (conn w)))) w).
Proof. unfold bind, insert_summary, bind, guard. by destruct (fault InsertSummary). Qed.

Lemma bind_commit {B} (k : unit → M B) w :
  bind (commit fault) k w
  = if fault Commit then (inl (StorageError Commit), w)
    else k () (mkWorld (heap w) (files w) (conn w) (conn w)).
Proof. unfold bind, commit, bind, guard. by destruct (fault Commit). Qed.

(** What a run of the detection amounts to, by its result. *)
Lemma run_fraud_detection_cases user_id timestamp upload_date r w df :
  heap w !! r = Some df →
  match run_fraud_detection parse_datetime art fault user_id timestamp upload_date r w with
  | (inl e, w') => (∀ s, e ≠ StorageError s) → store_of w' = store_of w
  | (inr (total, fraud), w') =>
      ∃ labels w1,
        make_predictions parse_datetime art r w = (inr labels, w1)
        ∧ length labels = nrows df
        ∧ (∀ s, fault s = false)
        ∧ total = Z.of_nat (nrows df)
        ∧ fraud = wrap64 (Z.of_nat (count_fraud (Str <$> labels)))
        ∧ heap w' !! r = Some df
        ∧ files w' = <[pred_path_of user_id timestamp := with_predictions df labels]>
                       (<[data_path_of user_id timestamp := df]> (files w))
        ∧ datasets (conn w') =
            datasets (conn w) ++
              [mkDataset (S (seq_datasets (conn w))) user_id upload_date
                 (data_path_of user_id timestamp) (pred_path_of user_id timestamp)]
        ∧ predictions (conn w') =
            predictions (conn w) ++
              [mkPrediction (S (seq_predictions (conn w))) (S (seq_datasets (conn w)))
                 (sqlite_bind (PyInt total)) (sqlite_bind (NpInt64 fraud))
                 (sqlite_bind (py_sub (PyInt total) (NpInt64 fraud)))]
        ∧ disk w' = conn w'
        ∧ Forall (λ s, s ∈ fraud_classes art) labels
  end.
Proof.
  intros Hr. unfold run_fraud_detection.
  pose proof (make_predictions_preserving parse_datetime art r w) as Hpres.
  unfold bind at 1.
  destruct (make_predictions parse_datetime art r w) as [[e|labels] w1] eqn:Hmp;
    simpl in Hpres; destruct Hpres as [Hstore Hheap].
  { intros _. exact Hstore. }
  pose proof (Hheap _ _ Hr) as Hr1.
  rewrite (bind_df_copy _ _ _ _ Hr1).
  set (r2 := fresh (dom (heap w1))).
  assert (r ≠ r2) as Hne by (by eapply fresh_lookup_ne).
  erewrite bind_setitem by (simpl; apply lookup_insert_eq).
  rewrite length_fmap.
  case_decide as Hlen; [|intros _; exact Hstore].
  erewrite bind_getitem;
    [| simpl; apply lookup_insert_eq
     | simpl; rewrite lookup_col_set_col; by rewrite decide_True].
  erewrite bind_deref by (simpl; apply lookup_insert_eq).
  erewrite bind_to_csv by (simpl; rewrite !lookup_insert_ne by done; exact Hr1).
  destruct (fault WriteData) eqn:F1; [intros Hs; by destruct (Hs WriteData)|].
  erewrite bind_to_csv by (simpl; apply lookup_insert_eq).
  destruct (fault WritePredictions) eqn:F2; [intros Hs; by destruct (Hs WritePredictions)|].
  rewrite bind_insert_dataset.
  destruct (fault InsertDataset) eqn:F3; [intros Hs; by destruct (Hs InsertDataset)|].
  rewrite bind_insert_summary.
  destruct (fault InsertSummary) eqn:F4; [intros Hs; by destruct (Hs InsertSummary)|].
  rewrite bind_commit.
  destruct (fault Commit) eqn:F5; [intros Hs; by destruct (Hs Commit)|].
  simpl. unfold ret.
  injection Hstore as Hf Hc Hd.
  exists labels, w1. split_and!; try done.
  - by intros [].
  - rewrite !lookup_insert_ne by done. exact Hr1.
  - by rewrite Hf.
  - by rewrite Hc.
  - by rewrite Hc.
  - by destruct (make_predictions_decoded _ _ _ _ _ _ Hmp) as (? & ? & ? & _ & _ & _ & _ & ?).
Qed.

End UploadFacts.

(** ** The feature transformer on a validated table *)

Lemma mapE_length {A B} (f : A → exn + B) l ys :
  mapE f l = inr ys → length ys = length l.
Proof.
  revert ys. induction l as [|x l IH]; simpl; intros ys H.
  - by injection H as <-.
  - destruct (f x); [done|]. destruct (mapE f l) eqn:E; [done|].
    injection H as <-. simpl. f_equal. by apply IH.
Qed.

Lemma mapE_total {A B} (f : A → exn + B) (g : A → B) l :
  Forall (λ x, f x = inr (g x)) l → mapE f l = inr (g <$> l).
Proof.
  induction 1 as [|x l Hx _ IH]; simpl; [done|]. by rewrite Hx, IH.
Qed.


Lemma index_of_Some s classes : s ∈ classes → is_Some (index_of s classes).
Proof.
  induction classes as [|c classes IH]; [by intros ?%elem_of_nil|].
  intros Hin. simpl. case_decide; [by eexists|].
  apply elem_of_cons in Hin as [|Hin]; [congruence|].
  destruct (IH Hin) as [i ->]. by eexists.
Qed.


Lemma encode_label_in_vocabulary classes c :
  in_vocabulary classes c → ∃ code, encode_label classes c = inr code.
Proof.
  intros (s & -> & Hin). simpl.
  destruct (index_of_Some _ _ Hin) as [i ->]. by eexists.
Qed.


Lemma encode_label_inl classes c e :
  encode_label classes c = inl e → e = UnseenLabel c ∧ ¬ in_vocabulary classes c.
Proof.
  intros He. split.
  - destruct c as [s| | |]; simpl in He; try by injection He as <-.
    destruct (index_of s classes); [done | by injection He as <-].
  - intros Hin. destruct (encode_label_in_vocabulary _ _ Hin) as [code Hcode]. congruence.
Qed.


Lemma standardize_numeric p c : numeric c → standardize p c = inr (scale_cell p c).
Proof. by destruct c. Qed.

Lemma to_datetime_not_null parse_datetime s :
  Forall (parses parse_datetime) s →
  existsb isnull (to_datetime parse_datetime s) = false.
Proof.
  induction 1 as [|c s [t Ht] _ IH]; simpl; [done|]. by rewrite Ht.
Qed.


Lemma mapE_standardize_inr p l l' :
  mapE (standardize p) l = inr l' → l' = scale_cell p <$> l.
Proof.
  revert l'. induction l as [|c l IH]; simpl; intros l' H.
  - by injection H as <-.
  - destruct (standardize p c) as [|c'] eqn:Hc; [done|].
    destruct (mapE (standardize p) l) as [|l0]; [done|].
    injection H as <-. rewrite (IH l0) by done.
    destruct c; simpl in Hc; try done; by injection Hc as <-.
Qed.

(** What the scaler returns when it does not raise. *)
Lemma scaler_transform_inr art age amount stay age' amount' stay' :
  scaler_transform art age amount stay = inr (age', amount', stay') →
  age' = scale_cell (scaler_age art) <$> age
  ∧ amount' = scale_cell (scaler_amount_billed art) <$> amount
  ∧ stay' = scale_cell (scaler_length_of_stay art) <$> stay
  ∧ age ≠ [].
Proof.
  unfold scaler_transform.
  destruct (mapE (standardize (scaler_age art)) age) as [|a] eqn:Ha; [done|].
  destruct (mapE (standardize (scaler_amount_billed art)) amount) as [|b] eqn:Hb; [done|].
  destruct (mapE (standardize (scaler_length_of_stay art)) stay) as [|c] eqn:Hc; [done|].
  case_decide as Hlen; [done|]. intros [= <- <- <-].
  split_and!; try by apply mapE_standardize_inr.
  intros ->. by apply Hlen.
Qed.


(** A table without rows is refused by the scaler. *)
Lemma scaler_transform_no_rows art amount stay :
  Forall numeric amount → Forall numeric stay →
  scaler_transform art [] amount stay = inl EmptySamples.
Proof.
  intros Hb Hc. unfold scaler_transform. simpl.
  rewrite (mapE_total _ (scale_cell (scaler_amount_billed art)))
    by (eapply Forall_impl; [exact Hb|]; intros c' Hc'; by apply standardize_numeric).
  by rewrite (mapE_total _ (scale_cell (scaler_length_of_stay art)))
    by (eapply Forall_impl; [exact Hc|]; intros c' Hc'; by apply standardize_numeric).
Qed.

Ltac look := simpl; apply lookup_insert_eq.

Ltac col :=
  simpl;
  repeat first [rewrite lookup_col_set_col | rewrite lookup_col_drop_cols];
  simpl; try done.

Section Transformer.

Variable parse_datetime : cell → option Z.
Variable art : artifacts.
Variables (w : world) (r : loc) (df : DataFrame).
Variables (admitted discharged gender diagnosis age amount : Series).

Hypothesis Hr : heap w !! r = Some df.
Hypothesis Hadmitted : lookup_col "Date Admitted" (cols df) = Some admitted.
Hypothesis Hdischarged : lookup_col "Date Discharged" (cols df) = Some discharged.
Hypothesis Hgender : lookup_col "Gender" (cols df) = Some gender.
Hypothesis Hdiagnosis : lookup_col "Diagnosis" (cols df) = Some diagnosis.
Hypothesis Hage : lookup_col "Age" (cols df) = Some age.
Hypothesis Hamount : lookup_col "Amount Billed" (cols df) = Some amount.
Hypothesis Hlen_admitted : length admitted = nrows df.
Hypothesis Hlen_discharged : length discharged = nrows df.
Hypothesis Hlen_gender : length gender = nrows df.
Hypothesis Hlen_diagnosis : length diagnosis = nrows df.
Hypothesis Hlen_age : length age = nrows df.
Hypothesis Hlen_amount : length amount = nrows df.
Hypothesis Hparse_admitted : Forall (parses parse_datetime) admitted.
Hypothesis Hparse_discharged : Forall (parses parse_datetime) discharged.

(** On a table that passed validation, the transformer fails where the
    diagnosis encoder or the scaler fails and nowhere else; when neither
    does, the processed copy is [processed_frame]. *)
Lemma preprocess_data_validated :
  ∃ w', store_of w' = store_of w
    ∧ match label_transform (diagnosis_classes art) diagnosis with
      | inl e => preprocess_data parse_datetime art r w = (inl e, w')
      | inr codes =>
          match scaler_transform art age amount
                  (stay_days parse_datetime admitted discharged) with
          | inl e => preprocess_data parse_datetime art r w = (inl e, w')
          | inr _ =>
              preprocess_data parse_datetime art r w = (inr (fresh (dom (heap w))), w')
              ∧ heap w' !! fresh (dom (heap w))
                = Some (processed_frame parse_datetime art df)
          end
      end.
Proof.
  pose proof (preprocess_data_preserving parse_datetime art r w) as [Hstore _].
  destruct (preprocess_data parse_datetime art r w) as [res w'] eqn:Hrun.
  simpl in Hstore. exists w'. split; [done|].
  unfold preprocess_data in Hrun.
  rewrite (bind_df_copy _ _ _ _ Hr) in Hrun.
  set (r' := fresh (dom (heap w))) in *.
  erewrite bind_getitem in Hrun; [|look|col; exact Hadmitted].
  erewrite bind_setitem in Hrun by look. simpl nrows in Hrun.
  rewrite decide_True in Hrun by (unfold to_datetime; by rewrite length_fmap).
  erewrite bind_getitem in Hrun; [|look|col; exact Hdischarged].
  erewrite bind_setitem in Hrun by look. simpl nrows in Hrun.
  rewrite decide_True in Hrun by (unfold to_datetime; by rewrite length_fmap).
  erewrite bind_getitem in Hrun; [|look|col].
  erewrite bind_getitem in Hrun; [|look|col].
  rewrite !to_datetime_not_null in Hrun by done. change (false || false) with false in Hrun. cbv iota in Hrun.
  fold (stay_days parse_datetime admitted discharged) in Hrun.
  set (stay := stay_days parse_datetime admitted discharged) in *.
  assert (length stay = nrows df) as Hlen_stay.
  { unfold stay, stay_days, to_datetime. rewrite length_zip_with, !length_fmap. lia. }
  erewrite bind_setitem in Hrun by look. simpl nrows in Hrun.
  rewrite decide_True in Hrun by done.
  erewrite bind_drop in Hrun by look. simpl nrows in Hrun.
  erewrite bind_getitem in Hrun; [|look|col; exact Hgender].
  erewrite bind_setitem in Hrun by look. simpl nrows in Hrun.
  rewrite decide_True in Hrun by (by rewrite length_fmap).
  erewrite bind_getitem in Hrun; [|look|col; exact Hdiagnosis].
  destruct (label_transform (diagnosis_classes art) diagnosis) as [e|codes] eqn:Hcodes.
  { rewrite bind_lift_inl in Hrun. by injection Hrun as <- <-. }
  rewrite bind_lift_inr in Hrun.
  erewrite bind_setitem in Hrun by look. simpl nrows in Hrun.
  rewrite decide_True in Hrun
    by (unfold label_transform in Hcodes; by rewrite (mapE_length _ _ _ Hcodes)).
  erewrite bind_getitem in Hrun; [|look|col; exact Hage].
  erewrite bind_getitem in Hrun; [|look|col; exact Hamount].
  erewrite bind_getitem in Hrun; [|look|col].
  destruct (scaler_transform art age amount stay) as [e|[[age' amount'] stay']] eqn:Hscaled.
  { rewrite bind_lift_inl in Hrun. by injection Hrun as <- <-. }
  rewrite bind_lift_inr in Hrun.
  apply scaler_transform_inr in Hscaled as (-> & -> & -> & _).
  cbn [fst snd] in Hrun.
  erewrite bind_setitem in Hrun by look. simpl nrows in Hrun.
  rewrite decide_True in Hrun by (by rewrite length_fmap).
  erewrite bind_setitem in Hrun by look. simpl nrows in Hrun.
  rewrite decide_True in Hrun by (by rewrite length_fmap).
  erewrite bind_setitem in Hrun by look. simpl nrows in Hrun.
  rewrite decide_True in Hrun by (by rewrite length_fmap).
  unfold ret in Hrun. injection Hrun as <- <-.
  split; [done|].
  simpl. rewrite lookup_insert_eq. f_equal.
  unfold processed_frame.
  rewrite Hadmitted, Hdischarged, Hgender, Hdiagnosis, Hage, Hamount. simpl.
  rewrite Hcodes. done.
Qed.


End Transformer.

Ltac col_in H :=
  simpl in H;
  repeat first [rewrite lookup_col_set_col in H | rewrite lookup_col_drop_cols in H];
  simpl in H.

Section TransformerReturns.

Variable parse_datetime : cell → option Z.
Variable art : artifacts.

(** Whenever [preprocess_data] returns, what it returns is the new copy, and
    the copy holds [processed_frame]; the table had a row. *)
Lemma preprocess_data_returns w r df r' w' :
  heap w !! r = Some df →
  preprocess_data parse_datetime art r w = (inr r', w') →
  r' = fresh (dom (heap w))
  ∧ heap w' !! r' = Some (processed_frame parse_datetime art df)
  ∧ nrows df ≠ 0%nat.
Proof.
  intros Hr Hrun. unfold preprocess_data in Hrun.
  rewrite (bind_df_copy _ _ _ _ Hr) in Hrun.
  set (r0 := fresh (dom (heap w))) in *.
  eapply bind_getitem_inv in Hrun as (admitted & Hadmitted & Hrun); [|look].
  col_in Hadmitted.
  eapply bind_setitem_inv in Hrun as (_ & Hrun); [|look]. simpl nrows in Hrun.
  eapply bind_getitem_inv in Hrun as (discharged & Hdischarged & Hrun); [|look].
  col_in Hdischarged.
  eapply bind_setitem_inv in Hrun as (_ & Hrun); [|look]. simpl nrows in Hrun.
  eapply bind_getitem_inv in Hrun as (a' & Ha' & Hrun); [|look].
  col_in Ha'. injection Ha' as <-.
  eapply bind_getitem_inv in Hrun as (d' & Hd' & Hrun); [|look].
  col_in Hd'. injection Hd' as <-.
  match type of Hrun with
  | (if ?b then _ else _) _ = _ => destruct b; [discriminate Hrun|]
  end.
  eapply bind_setitem_inv in Hrun as (_ & Hrun); [|look]. simpl nrows in Hrun.
  erewrite bind_drop in Hrun by look. simpl nrows in Hrun.
  eapply bind_getitem_inv in Hrun as (gender & Hgender & Hrun); [|look].
  col_in Hgender.
  eapply bind_setitem_inv in Hrun as (_ & Hrun); [|look]. simpl nrows in Hrun.
  eapply bind_getitem_inv in Hrun as (diagnosis & Hdiagnosis & Hrun); [|look].
  col_in Hdiagnosis.
  apply bind_lift_inv in Hrun as (codes & Hcodes & Hrun).
  eapply bind_setitem_inv in Hrun as (_ & Hrun); [|look]. simpl nrows in Hrun.
  eapply bind_getitem_inv in Hrun as (age & Hage & Hrun); [|look].
  col_in Hage.
  eapply bind_getitem_inv in Hrun as (amount & Hamount & Hrun); [|look].
  col_in Hamount.
  eapply bind_getitem_inv in Hrun as (stay & Hstay & Hrun); [|look].
  col_in Hstay. injection Hstay as <-.
  apply bind_lift_inv in Hrun as ([[age' amount'] stay'] & Hscaled & Hrun).
  apply scaler_transform_inr in Hscaled as (-> & -> & -> & Hrows).
  cbn [fst snd] in Hrun.
  eapply bind_setitem_inv in Hrun as (Hlen & Hrun); [|look]. simpl nrows in Hrun, Hlen.
  eapply bind_setitem_inv in Hrun as (_ & Hrun); [|look]. simpl nrows in Hrun.
  eapply bind_setitem_inv in Hrun as (_ & Hrun); [|look]. simpl nrows in Hrun.
  unfold ret in Hrun. injection Hrun as <- <-.
  split; [done|]. split.
  - simpl. rewrite lookup_insert_eq. f_equal.
    unfold processed_frame.
    rewrite Hadmitted, Hdischarged, Hgender, Hdiagnosis, Hage, Hamount. simpl.
    rewrite Hcodes. done.
  - rewrite length_fmap in Hlen. rewrite <- Hlen. by destruct age.
Qed.

End TransformerReturns.

(** ** The exceptions of the pipeline *)

Lemma storage_free_ret {A} (x : A) : storage_free (ret x).
Proof. intros w e w' H. discriminate H. Qed.

Lemma storage_free_raise {A} e : (∀ s, e ≠ StorageError s) → storage_free (@raise A e).
Proof. intros He w e' w' [= <- _]. exact He. Qed.

Lemma storage_free_lift {A} (x : exn + A) :
  (∀ e, x = inl e → ∀ s, e ≠ StorageError s) → storage_free (lift x).
Proof. intros Hx w e w' [= H _]. by apply Hx. Qed.

Lemma storage_free_bind {A B} (m : M A) (k : A → M B) :
  storage_free m → (∀ x, storage_free (k x)) → storage_free (bind m k).
Proof.
  intros Hm Hk w e w'. unfold bind.
  destruct (m w) as [[e1|x] w1] eqn:Hmw.
  - intros [= <- <-]. by eapply Hm.
  - apply Hk.
Qed.

Lemma storage_free_deref r : storage_free (deref r).
Proof. intros w e w'. unfold deref. destruct (heap w !! r); [done|]. by intros [= <- _]. Qed.

Lemma storage_free_getitem r c : storage_free (getitem r c).
Proof.
  apply storage_free_bind; [apply storage_free_deref|]. intros df.
  destruct (lookup_col c (cols df)); [apply storage_free_ret | by apply storage_free_raise].
Qed.

Lemma storage_free_setitem r c v : storage_free (setitem r c v).
Proof.
  apply storage_free_bind; [apply storage_free_deref|]. intros df.
  case_decide as Hlen; [|by apply storage_free_raise]. intros w e w' H. discriminate H.
Qed.

Lemma storage_free_drop r names : storage_free (drop r names).
Proof.
  apply storage_free_bind; [apply storage_free_deref|]. intros df w e w' H. discriminate H.
Qed.

Lemma storage_free_df_copy r : storage_free (df_copy r).
Proof.
  apply storage_free_bind; [apply storage_free_deref|]. intros df w e w' H. discriminate H.
Qed.

Lemma mapE_inl {A B} (f : A → exn + B) l e :
  mapE f l = inl e → ∃ x, x ∈ l ∧ f x = inl e.
Proof.
  induction l as [|x l IH]; simpl; [done|].
  destruct (f x) as [e1|y] eqn:Hx.
  - intros [= <-]. exists x. split; [left | done].
  - destruct (mapE f l) as [e1|ys]; [|done].
    intros [= <-]. destruct IH as (x' & Hin & Hf); [done|].
    exists x'. split; [by right | done].
Qed.

Lemma standardize_inl p c e : standardize p c = inl e → e = NotNumeric.
Proof. destruct c; simpl; congruence. Qed.

Lemma label_transform_inl classes y e :
  label_transform classes y = inl e → ∃ v, e = UnseenLabel v.
Proof.
  intros (c & _ & Hc)%mapE_inl. exists c. by apply encode_label_inl in Hc as [-> _].
Qed.

Lemma scaler_transform_inl art age amount stay e :
  scaler_transform art age amount stay = inl e → e = NotNumeric ∨ e = EmptySamples.
Proof.
  unfold scaler_transform.
  destruct (mapE (standardize (scaler_age art)) age) as [e1|a] eqn:Ha.
  { intros [= <-]. apply mapE_inl in Ha as (c & _ & Hc). left. by eapply standardize_inl. }
  destruct (mapE (standardize (scaler_amount_billed art)) amount) as [e1|b] eqn:Hb.
  { intros [= <-]. apply mapE_inl in Hb as (c & _ & Hc). left. by eapply standardize_inl. }
  destruct (mapE (standardize (scaler_length_of_stay art)) stay) as [e1|c] eqn:Hc.
  { intros [= <-]. apply mapE_inl in Hc as (c & _ & Hc). left. by eapply standardize_inl. }
  case_decide; [|done]. intros [= <-]. by right.
Qed.

Lemma predict_inl art X e : predict art X = inl e → ∃ msg, e = ModelError msg.
Proof.
  unfold predict. destruct (forallb _ _); [|intros [= <-]; by eexists].
  case_decide; [|intros [= <-]; by eexists].
  destruct (model_predict art X); [|done]. intros [= <-]. by eexists.
Qed.

(** What [model.predict] has checked when it returns. *)
Lemma predict_inr art X y :
  predict art X = inr y →
  length (cols X) = n_features art
  ∧ Forall (λ c, float_dtype c.2 = true) (cols X)
  ∧ model_predict art X = inr y.
Proof.
  unfold predict. destruct (forallb _ _) eqn:Hd; [|done].
  case_decide as Hn; [|done].
  destruct (model_predict art X) as [|y']; [done|]. intros [= <-].
  split_and!; try done. apply Forall_forall. intros c Hc.
  rewrite forallb_forall in Hd. by apply Hd, list_elem_of_In.
Qed.

Lemma label_inverse_transform_inl classes y e :
  label_inverse_transform classes y = inl e → ∃ v, e = UnseenLabel v.
Proof.
  intros (i & _ & Hi)%mapE_inl. unfold decode_label in Hi.
  destruct (classes !! i); [done|]. injection Hi as <-. by eexists.
Qed.

Ltac storage_free_tac :=
  repeat first
    [ apply storage_free_ret | apply storage_free_getitem | apply storage_free_setitem
    | apply storage_free_drop | apply storage_free_deref
    | apply storage_free_bind; [|intros ?]
    | match goal with |- storage_free (if ?b then _ else _) => destruct b end ].

Section PipelineErrors.

Variable parse_datetime : cell → option Z.
Variable art : artifacts.

(** Validation, transformation and classification raise no storage error. *)
Lemma make_predictions_storage_free r :
  storage_free (make_predictions parse_datetime art r).
Proof.
  unfold make_predictions, preprocess_data.
  apply storage_free_bind; [|intros p].
  - apply storage_free_bind; [apply storage_free_df_copy|]. intros c.
    storage_free_tac.
    + by apply storage_free_raise.
    + apply storage_free_lift. by intros e [v ->]%label_transform_inl.
    + apply storage_free_lift. by intros e [->| ->]%scaler_transform_inl.
  - storage_free_tac.
    + apply storage_free_lift. by intros e [msg ->]%predict_inl.
    + apply storage_free_lift. by intros e [v ->]%label_inverse_transform_inl.
Qed.

(** The labels of a table are those of its processed frame; a table that is
    classified has a row. *)
Lemma make_predictions_classified r w df labels w' :
  heap w !! r = Some df →
  make_predictions parse_datetime art r w = (inr labels, w') →
  classify art (processed_frame parse_datetime art df) = inr labels
  ∧ nrows df ≠ 0%nat.
Proof.
  intros Hr Hmp.
  destruct (make_predictions_decoded _ _ _ _ _ _ Hmp)
    as (p & X & y & Hpre & HX & Hy & Hlabels & _).
  destruct (preprocess_data_returns _ _ _ _ _ _ _ Hr Hpre) as (-> & Hp & Hrows).
  rewrite Hp in HX. injection HX as <-.
  split; [|done]. unfold classify. by rewrite Hy.
Qed.

End PipelineErrors.

(** ** The storage steps of a run *)

Section StorageSteps.

Variable parse_datetime : cell → option Z.
Variable art : artifacts.
Variable fault : storage_step → bool.
Variables (user_id : nat) (timestamp upload_date : string).


(** A run that ends with the error of a storage step: the table was
    classified, the step is the first one that fails, and the store holds
    what the steps before it wrote; nothing is committed. *)
Lemma run_fraud_detection_storage_error r w df s w' :
  heap w !! r = Some df →
  run_fraud_detection parse_datetime art fault user_id timestamp upload_date r w
    = (inl (StorageError s), w') →
  fault s = true
  ∧ (∀ s', earlier s' s = true → fault s' = false)
  ∧ ∃ labels,
      classify art (processed_frame parse_datetime art df) = inr labels
      ∧ length labels = nrows df
      ∧ files w' = files_written s user_id timestamp df labels (files w)
      ∧ conn w' = rows_inserted s user_id timestamp upload_date df labels (conn w)
      ∧ disk w' = disk w.
Proof.
  intros Hr. unfold run_fraud_detection.
  pose proof (make_predictions_preserving parse_datetime art r w) as Hpres.
  pose proof (make_predictions_storage_free parse_datetime art r w) as Hfree.
  unfold bind at 1.
  destruct (make_predictions parse_datetime art r w) as [[e|labels] w1] eqn:Hmp;
    simpl in Hpres; destruct Hpres as [Hstore Hheap].
  { intros [= -> ->]. by destruct (Hfree _ _ eq_refl s). }
  destruct (make_predictions_classified _ _ _ _ _ _ _ Hr Hmp) as [Hclass _].
  injection Hstore as Hf Hc Hd.
  pose proof (Hheap _ _ Hr) as Hr1.
  rewrite (bind_df_copy _ _ _ _ Hr1).
  set (r2 := fresh (dom (heap w1))).
  assert (r ≠ r2) as Hne by (by eapply fresh_lookup_ne).
  erewrite bind_setitem by (simpl; apply lookup_insert_eq).
  rewrite length_fmap.
  case_decide as Hlen; [|intros [=]].
  erewrite bind_getitem;
    [| simpl; apply lookup_insert_eq
     | simpl; rewrite lookup_col_set_col; by rewrite decide_True].
  erewrite bind_deref by (simpl; apply lookup_insert_eq).
  erewrite bind_to_csv by (simpl; rewrite !lookup_insert_ne by done; exact Hr1).
  assert (∀ s0 : storage_step, (∀ s', earlier s' s0 = true → fault s' = false) →
            fault s0 = true → ∀ w0,
            files w0 = files_written s0 user_id timestamp df labels (files w) →
            conn w0 = rows_inserted s0 user_id timestamp upload_date df labels (conn w) →
            disk w0 = disk w →
            (@inl exn (Z * Z) (StorageError s0), w0) = (inl (StorageError s), w') →
            fault s = true
            ∧ (∀ s', earlier s' s = true → fault s' = false)
            ∧ ∃ labels,
                classify art (processed_frame parse_datetime art df) = inr labels
                ∧ length labels = nrows df
                ∧ files w' = files_written s user_id timestamp df labels (files w)
                ∧ conn w' = rows_inserted s user_id timestamp upload_date df labels (conn w)
                ∧ disk w' = disk w) as Hstep.
  { intros s0 Hbefore Hs0 w0 Hfiles Hconn Hdisk [= <- <-].
    split; [done|]. split; [done|]. by exists labels. }
  destruct (fault WriteData) eqn:F1.
  { apply Hstep; [intros [] H; first [done | by vm_compute in H] | done | | | done];
      unfold files_written, rows_inserted, with_summary, with_dataset, fraud_value, earlier;
      simpl; by rewrite ?Hf, ?Hc. }
  erewrite bind_to_csv by (simpl; apply lookup_insert_eq).
  destruct (fault WritePredictions) eqn:F2.
  { apply Hstep; [intros [] H; first [done | by vm_compute in H] | done | | | done];
      unfold files_written, rows_inserted, with_summary, with_dataset, fraud_value, earlier;
      simpl; by rewrite ?Hf, ?Hc. }
  rewrite bind_insert_dataset.
  destruct (fault InsertDataset) eqn:F3.
  { apply Hstep; [intros [] H; first [done | by vm_compute in H] | done | | | done];
      unfold files_written, rows_inserted, with_summary, with_dataset, fraud_value, earlier;
      simpl; by rewrite ?Hf, ?Hc. }
  rewrite bind_insert_summary.
  destruct (fault InsertSummary) eqn:F4.
  { apply Hstep; [intros [] H; first [done | by vm_compute in H] | done | | | done];
      unfold files_written, rows_inserted, with_summary, with_dataset, fraud_value, earlier;
      simpl; by rewrite ?Hf, ?Hc. }
  rewrite bind_commit.
  destruct (fault Commit) eqn:F5; [|intros [=]].
  apply Hstep; [intros [] H; first [done | by vm_compute in H] | done | | | done];
    unfold files_written, rows_inserted, with_summary, with_dataset, fraud_value, earlier;
    simpl; by rewrite ?Hf, ?Hc.
Qed.

End StorageSteps.

(** ** Counts through sqlite3 *)

Lemma byte_of_Z_value z : Z.of_N (Byte.to_N (byte_of_Z z)) = z `mod` 256.
Proof.
  unfold byte_of_Z.
  assert (0 ≤ z `mod` 256 < 256) as Hb by (apply Z.mod_pos_bound; lia).
  destruct (Byte.of_N (Z.to_N (z `mod` 256))) as [b|] eqn:Hof.
  - apply Byte.to_of_N in Hof. simpl. rewrite Hof. lia.
  - apply Byte.of_N_None_iff in Hof. lia.
Qed.

Lemma from_to_bytes_little k z :
  from_bytes_little (to_bytes_little k z) = z `mod` 256 ^ Z.of_nat k.
Proof.
  revert z. induction k as [|k IH]; intros z.
  - simpl. by rewrite Z.mod_1_r.
  - cbn [to_bytes_little from_bytes_little].
    rewrite byte_of_Z_value, IH.
    rewrite Nat2Z.inj_succ, Z.pow_succ_r by lia.
    rewrite Z.rem_mul_r by lia. done.
Qed.

Lemma from_bytes_little_nonneg bs : 0 ≤ from_bytes_little bs.
Proof. induction bs as [|b bs IH]; simpl; lia. Qed.

(** The value of a byte sequence read little-endian, position by position. *)
Lemma from_bytes_little_app bs1 bs2 :
  from_bytes_little (bs1 ++ bs2)
  = from_bytes_little bs1 + 256 ^ Z.of_nat (length bs1) * from_bytes_little bs2.
Proof.
  induction bs1 as [|b bs1 IH]; cbn [app from_bytes_little length].
  - simpl. lia.
  - rewrite IH, Nat2Z.inj_succ, Z.pow_succ_r by lia. lia.
Qed.

(** Whatever was bound, the shim returns it read as an unsigned number. *)
Lemma to_int_if_bytes_bind x :
  to_int_if_bytes (sqlite_bind x)
  = match x with PyInt n => n | NpInt64 n => n `mod` 2 ^ 64 end.
Proof.
  destruct x as [n|n]; simpl; [done|].
  change (from_bytes_little (to_bytes_little 8 (n `mod` 2 ^ 64)) = n `mod` 2 ^ 64).
  rewrite from_to_bytes_little.
  change (256 ^ Z.of_nat 8) with (2 ^ 64). by rewrite Z.mod_mod.
Qed.

Lemma wrap64_small z : - 2 ^ 63 ≤ z < 2 ^ 63 → wrap64 z = z.
Proof. intros H. unfold wrap64. rewrite Z.mod_small; lia. Qed.

(** C9. A summary count that the upload bound for sqlite3, be it a Python
    [int] (stored as INTEGER) or a [numpy.int64] (stored as the BLOB of its
    bytes), is returned by [to_int_if_bytes] as the integer that was stored; a
    NULL is read as 0 and a BLOB is never read as a negative number. *)
Theorem to_int_if_bytes_normalizes (x : pyint) :
  0 ≤ py_value x < 2 ^ 63 →
  to_int_if_bytes (sqlite_bind x) = py_value x
  ∧ to_int_if_bytes SqlNull = 0
  ∧ (∀ n, to_int_if_bytes (SqlInt n) = n)
  ∧ (∀ bs, 0 ≤ to_int_if_bytes (SqlBlob bs)).
Proof.
  intros Hx. split_and!; [|done|done|intros bs; apply from_bytes_little_nonneg].
  rewrite to_int_if_bytes_bind. destruct x as [n|n]; simpl in *; [done|].
  apply Z.mod_small. lia.
Qed.

Lemma to_int_if_bytes_normalizes_witness :
  to_int_if_bytes (sqlite_bind (NpInt64 258)) = 258
  ∧ to_int_if_bytes SqlNull = 0
  ∧ (∀ n, to_int_if_bytes (SqlInt n) = n)
  ∧ (∀ bs, 0 ≤ to_int_if_bytes (SqlBlob bs)).
Proof. apply (to_int_if_bytes_normalizes (NpInt64 258)). simpl. lia. Defined.

(** What the dashboard reads back from a row the upload inserted. *)
Lemma read_summary_inserted id dataset_id (total fraud : Z) :
  0 ≤ fraud ≤ total → total < 2 ^ 63 →
  read_summary
    (mkPrediction id dataset_id (sqlite_bind (PyInt total)) (sqlite_bind (NpInt64 fraud))
       (sqlite_bind (py_sub (PyInt total) (NpInt64 fraud))))
  = {| total_cases := total; fraud_count := fraud; non_fraud_count := total - fraud |}.
Proof.
  intros Hf Ht. unfold read_summary. cbn [pr_total_cases pr_fraud_count pr_non_fraud_count].
  rewrite !to_int_if_bytes_bind. cbn [py_sub py_value].
  rewrite wrap64_small by lia. rewrite !Z.mod_small by lia. done.
Qed.

Lemma count_fraud_le s : (count_fraud s ≤ length s)%nat.
Proof. unfold count_fraud. apply length_filter. Qed.

(** ** The upload, from its outcome *)

Section UploadOutcome.

Variable parse_datetime : cell → option Z.
Variable art : artifacts.
Variable fault : storage_step → bool.
Variables (user_id : nat) (timestamp upload_date : string).

Lemma upload_tab_completed run uploaded w total fraud w' :
  upload_tab parse_datetime art fault user_id timestamp upload_date run uploaded w
    = (AnalysisCompleted total fraud, w') →
  ∃ labels,
    length labels = nrows uploaded
    ∧ (∀ s, fault s = false)
    ∧ (∀ col, col ∈ required_columns → col ∈ columns uploaded)
    ∧ total = Z.of_nat (nrows uploaded)
    ∧ fraud = wrap64 (Z.of_nat (count_fraud (Str <$> labels)))
    ∧ heap w' !! fresh (dom (heap w)) = Some uploaded
    ∧ files w' = <[pred_path_of user_id timestamp := with_predictions uploaded labels]>
                   (<[data_path_of user_id timestamp := uploaded]> (files w))
    ∧ datasets (conn w') =
        datasets (conn w) ++
          [mkDataset (S (seq_datasets (conn w))) user_id upload_date
             (data_path_of user_id timestamp) (pred_path_of user_id timestamp)]
    ∧ predictions (conn w') =
        predictions (conn w) ++
          [mkPrediction (S (seq_predictions (conn w))) (S (seq_datasets (conn w)))
             (sqlite_bind (PyInt total)) (sqlite_bind (NpInt64 fraud))
             (sqlite_bind (py_sub (PyInt total) (NpInt64 fraud)))]
    ∧ disk w' = conn w'
    ∧ Forall (λ s, s ∈ fraud_classes art) labels
    ∧ classify art (processed_frame parse_datetime art uploaded) = inr labels.
Proof.
  unfold upload_tab, read_csv.
  set (r := fresh (dom (heap w))).
  set (w1 := set_heap (<[r := uploaded]> (heap w)) w).
  destruct (decide (filter (λ col, col ∉ columns uploaded) required_columns ≠ []))
    as [|Hmissing]; [done|].
  destruct run; [|done].
  assert (heap w1 !! r = Some uploaded) as Hr by apply lookup_insert_eq.
  pose proof (run_fraud_detection_cases parse_datetime art fault user_id timestamp
                upload_date r w1 uploaded Hr) as Hcases.
  destruct (run_fraud_detection _ _ _ _ _ _ _ _) as [[e|[t f]] w2]; [done|].
  intros [= -> -> ->].
  destruct Hcases
    as (labels & w1' & Hmp & Hlen & Hfault & Ht & Hf & Hheap & Hfiles & Hds & Hps & Hdisk & Hdec).
  exists labels. split_and!; try done.
  2:{ by destruct (make_predictions_classified _ _ _ _ _ _ _ Hr Hmp). }
  intros col Hcol. apply dec_stable. intros Hnot.
  apply Hmissing. intros Hnil.
  assert (col ∈ filter (λ col, col ∉ columns uploaded) required_columns) as Hin
    by (by apply list_elem_of_filter).
  rewrite Hnil in Hin. by apply elem_of_nil in Hin.
Qed.

End UploadOutcome.

Lemma lookup_col_with_predictions df labels :
  lookup_col "Prediction" (cols (with_predictions df labels)) = Some (Str <$> labels).
Proof. unfold with_predictions. simpl. rewrite lookup_col_set_col. by rewrite decide_True. Qed.

Section UploadClaims.

Variable parse_datetime : cell → option Z.
Variable art : artifacts.
Variable fault : storage_step → bool.
Variables (user_id : nat) (timestamp upload_date : string).

(** C1. When an upload completes, the table of predictions is in [results/],
    the last committed row of [datasets] points at it and the last committed
    row of [predictions] is its summary: read through [to_int_if_bytes] it has
    [total_cases] the number of rows, [fraud_count] the number of rows whose
    label is not "No Fraud" and [non_fraud_count] their difference, so the
    two counts add up to the total. These are also the numbers shown. *)
Theorem upload_summary run uploaded w total fraud w' :
  index_bounded uploaded →
  upload_tab parse_datetime art fault user_id timestamp upload_date run uploaded w
    = (AnalysisCompleted total fraud, w') →
  ∃ df_predicted prediction ds row,
    files w' !! pred_path_of user_id timestamp = Some df_predicted
    ∧ lookup_col "Prediction" (cols df_predicted) = Some prediction
    ∧ last (datasets (disk w')) = Some ds
    ∧ ds_predictions_path ds = pred_path_of user_id timestamp
    ∧ last (predictions (disk w')) = Some row
    ∧ pr_dataset_id row = ds_id ds
    ∧ read_summary row = batch_summary df_predicted
    ∧ total_cases (read_summary row) = Z.of_nat (nrows uploaded)
    ∧ nrows df_predicted = nrows uploaded
    ∧ fraud_count (read_summary row)
      = Z.of_nat (length (filter (λ c, c ≠ Str "No Fraud") prediction))
    ∧ non_fraud_count (read_summary row)
      = total_cases (read_summary row) - fraud_count (read_summary row)
    ∧ fraud_count (read_summary row) + non_fraud_count (read_summary row)
      = total_cases (read_summary row)
    ∧ total = total_cases (read_summary row)
    ∧ fraud = fraud_count (read_summary row).
Proof.
  intros Hbound Hrun.
  destruct (upload_tab_completed _ _ _ _ _ _ _ _ _ _ _ _ Hrun)
    as (labels & Hlen & _ & _ & -> & -> & _ & Hfiles & Hds & Hps & Hdisk & _).
  unfold index_bounded in Hbound.
  pose proof (count_fraud_le (Str <$> labels)) as Hle.
  rewrite length_fmap, Hlen in Hle.
  rewrite wrap64_small in * by lia.
  eexists _, _, _, _.
  split; [rewrite Hfiles; apply lookup_insert_eq|].
  split; [apply lookup_col_with_predictions|].
  rewrite Hdisk, Hds, Hps, !last_snoc.
  split; [done|]. split; [done|]. split; [done|]. split; [done|].
  rewrite read_summary_inserted by lia.
  unfold batch_summary. rewrite lookup_col_with_predictions. simpl.
  split_and!; try done; try lia.
  unfold count_fraud, is_fraud. do 2 f_equal.
  apply list_filter_iff. intros c.
  rewrite bool_decide_eq_true. done.
Qed.

End UploadClaims.

Lemma upload_summary_witness :
  ∃ df_predicted prediction ds row,
    files (Demo.run_upload Demo.no_fault Demo.three_visits Demo.w0).2
      !! pred_path_of 7 "20240301120000" = Some df_predicted
    ∧ lookup_col "Prediction" (cols df_predicted) = Some prediction
    ∧ last (datasets (disk (Demo.run_upload Demo.no_fault Demo.three_visits Demo.w0).2))
      = Some ds
    ∧ ds_predictions_path ds = pred_path_of 7 "20240301120000"
    ∧ last (predictions (disk (Demo.run_upload Demo.no_fault Demo.three_visits Demo.w0).2))
      = Some row
    ∧ pr_dataset_id row = ds_id ds
    ∧ read_summary row = batch_summary df_predicted
    ∧ total_cases (read_summary row) = Z.of_nat (nrows Demo.three_visits)
    ∧ nrows df_predicted = nrows Demo.three_visits
    ∧ fraud_count (read_summary row)
      = Z.of_nat (length (filter (λ c, c ≠ Str "No Fraud") prediction))
    ∧ non_fraud_count (read_summary row)
      = total_cases (read_summary row) - fraud_count (read_summary row)
    ∧ fraud_count (read_summary row) + non_fraud_count (read_summary row)
      = total_cases (read_summary row)
    ∧ 3 = total_cases (read_summary row)
    ∧ 1 = fraud_count (read_summary row).
Proof.
  apply (upload_summary Demo.iso_date Demo.art Demo.no_fault 7 "20240301120000"
           "2024-03-01 12:00:00" true Demo.three_visits Demo.w0 3 1).
  - unfold index_bounded. simpl. lia.
  - vm_compute. reflexivity.
Defined.

(** The scenario of the specification: labels "No Fraud", "Billing Fraud",
    "No Fraud" give the summary (3, 1, 2). *)
Example three_visits_summary :
  let w' := (Demo.run_upload Demo.no_fault Demo.three_visits Demo.w0).2 in
  (lookup_col "Prediction" <$> (cols <$> files w' !! pred_path_of 7 "20240301120000"))
    = Some (Some [Str "No Fraud"; Str "Billing Fraud"; Str "No Fraud"])
  ∧ read_summary <$> last (predictions (disk w'))
    = Some {| total_cases := 3; fraud_count := 1; non_fraud_count := 2 |}.
Proof. vm_compute. done. Qed.

(** ** Validation of the columns *)

Lemma string_app_assoc' (a b c : string) : (a +:+ b) +:+ c = a +:+ (b +:+ c).
Proof.
  induction a as [|x a IH]; [done|].
  change (String x ((a +:+ b) +:+ c) = String x (a +:+ (b +:+ c))). by rewrite IH.
Qed.

Lemma string_app_empty_r (a : string) : a +:+ "" = a.
Proof.
  induction a as [|x a IH]; [done|].
  change (String x (a +:+ "") = String x a). by rewrite IH.
Qed.

Lemma occurs_in_concat sep col l : col ∈ l → occurs_in col (String.concat sep l).
Proof.
  induction l as [|x l IH]; [by intros ?%elem_of_nil|].
  intros Hin. destruct l as [|y l].
  - apply list_elem_of_singleton in Hin as ->. exists "", "".
    change (x = x +:+ ""). by rewrite string_app_empty_r.
  - change (String.concat sep (x :: y :: l))
      with (x +:+ sep +:+ String.concat sep (y :: l)).
    apply elem_of_cons in Hin as [->|Hin].
    + by exists "", (sep +:+ String.concat sep (y :: l)).
    + destruct (IH Hin) as (before & after & ->).
      exists (x +:+ sep +:+ before), after. by rewrite !string_app_assoc'.
Qed.

Lemma occurs_in_missing_columns_message col missing :
  col ∈ missing → occurs_in col (missing_columns_message missing).
Proof.
  intros Hin. destruct (occurs_in_concat ", " col missing Hin) as (before & after & Heq).
  exists ("Missing columns: " +:+ before), after.
  unfold missing_columns_message. by rewrite Heq, !string_app_assoc'.
Qed.

Section Validation.

Variable parse_datetime : cell → option Z.
Variable art : artifacts.
Variable fault : storage_step → bool.
Variables (user_id : nat) (timestamp upload_date : string).

(** C5. An upload that lacks a required column is answered by the error that
    lists the missing columns, every one of them and no other, and its text
    names each; nothing runs after the check: the only new frame is the parsed
    file itself, and files and database are what they were. *)
Theorem missing_columns_rejected run uploaded w col :
  col ∈ required_columns → col ∉ columns uploaded →
  ∃ missing w',
    upload_tab parse_datetime art fault user_id timestamp upload_date run uploaded w
      = (MissingColumns missing, w')
    ∧ (∀ c, c ∈ missing ↔ c ∈ required_columns ∧ c ∉ columns uploaded)
    ∧ (∀ c, c ∈ required_columns → c ∉ columns uploaded →
            occurs_in c (missing_columns_message missing))
    ∧ heap w' = <[fresh (dom (heap w)) := uploaded]> (heap w)
    ∧ files w' = files w ∧ conn w' = conn w ∧ disk w' = disk w.
Proof.
  intros Hreq Hcol.
  exists (filter (λ c, c ∉ columns uploaded) required_columns).
  eexists. unfold upload_tab, read_csv.
  assert (∀ c, c ∈ filter (λ c, c ∉ columns uploaded) required_columns
               ↔ c ∈ required_columns ∧ c ∉ columns uploaded) as Hmissing.
  { intros c. rewrite list_elem_of_filter. tauto. }
  rewrite decide_True.
  - split_and!; try done.
    intros c Hc1 Hc2. apply occurs_in_missing_columns_message. by apply Hmissing.
  - intros Hnil. assert (col ∈ @nil string) as Hin by (rewrite <- Hnil; by apply Hmissing).
    by apply elem_of_nil in Hin.
Qed.

End Validation.

Lemma missing_columns_rejected_witness :
  ∃ missing w',
    upload_tab Demo.iso_date Demo.art Demo.no_fault 7 "20240301120000"
      "2024-03-01 12:00:00" true Demo.without_diagnosis Demo.w0
      = (MissingColumns missing, w')
    ∧ (∀ c, c ∈ missing ↔ c ∈ required_columns ∧ c ∉ columns Demo.without_diagnosis)
    ∧ (∀ c, c ∈ required_columns → c ∉ columns Demo.without_diagnosis →
            occurs_in c (missing_columns_message missing))
    ∧ heap w' = <[fresh (dom (heap Demo.w0)) := Demo.without_diagnosis]> (heap Demo.w0)
    ∧ files w' = files Demo.w0 ∧ conn w' = conn Demo.w0 ∧ disk w' = disk Demo.w0.
Proof.
  apply (missing_columns_rejected Demo.iso_date Demo.art Demo.no_fault 7 "20240301120000"
           "2024-03-01 12:00:00" true Demo.without_diagnosis Demo.w0 "Diagnosis").
  - apply (bool_decide_unpack _). vm_compute. exact I.
  - apply (bool_decide_unpack _). vm_compute. exact I.
Defined.

(** The scenario of the specification: without the column "Diagnosis" the error
    lists "Diagnosis" and nothing is stored. *)
Example without_diagnosis_rejected :
  (Demo.run_upload Demo.no_fault Demo.without_diagnosis Demo.w0).1
    = MissingColumns ["Diagnosis"]
  ∧ store_of (Demo.run_upload Demo.no_fault Demo.without_diagnosis Demo.w0).2
    = store_of Demo.w0
  ∧ missing_columns_message ["Diagnosis"] = "Missing columns: Diagnosis".
Proof. vm_compute. done. Qed.

(** ** The caller's table *)

Lemma yields_ret {A} (x : A) : yields x (ret x).
Proof. intros w y w' [= <- _]. done. Qed.

Lemma yields_raise {A} (x : A) e : yields x (raise e).
Proof. intros w y w' H. discriminate H. Qed.

Lemma yields_bind {A B} (x : B) (m : M A) (k : A → M B) :
  (∀ a, yields x (k a)) → yields x (bind m k).
Proof.
  intros Hk w y w'. unfold bind. destruct (m w) as [[e|a] w1]; [done|]. apply Hk.
Qed.

Lemma yields_after_copy r (k : loc → M loc) :
  (∀ c, yields c (k c)) →
  ∀ w x w', bind (df_copy r) k w = (inr x, w') → x = fresh (dom (heap w)).
Proof.
  intros Hk w x w'. unfold bind, df_copy, bind, deref.
  destruct (heap w !! r) as [df|]; [|done]. simpl. apply Hk.
Qed.

Ltac yields_tac :=
  repeat first
    [ apply yields_ret | apply yields_raise
    | apply yields_bind; intros ?
    | match goal with |- yields _ (if ?b then _ else _) => destruct b end ].

Lemma data_path_ne_pred_path user_id timestamp :
  data_path_of user_id timestamp ≠ pred_path_of user_id timestamp.
Proof.
  intros H.
  apply (f_equal (λ s, match s with String a _ => Some a | EmptyString => None end)) in H.
  vm_compute in H. discriminate H.
Qed.

Section Frame.

Variable parse_datetime : cell → option Z.
Variable art : artifacts.

Lemma preprocess_data_returns_copy r w r' w' :
  preprocess_data parse_datetime art r w = (inr r', w') →
  r' = fresh (dom (heap w)).
Proof.
  unfold preprocess_data. apply yields_after_copy. intros c. yields_tac.
Qed.

End Frame.

Section FrameClaim.

Variable parse_datetime : cell → option Z.
Variable art : artifacts.
Variable fault : storage_step → bool.
Variables (user_id : nat) (timestamp upload_date : string).

(** C10. [preprocess_data] works on a copy: the frame it returns is a new
    one, and after it, as after [make_predictions], the caller's frame is
    what it was, with its raw columns, whether or not an exception was
    raised; files and database are not touched. When an upload completes,
    the file written to [data/] is the table exactly as it was uploaded. *)
Theorem make_predictions_leaves_table w r df :
  heap w !! r = Some df →
  heap (preprocess_data parse_datetime art r w).2 !! r = Some df
  ∧ (∀ r', (preprocess_data parse_datetime art r w).1 = inr r' →
           r' ≠ r ∧ heap w !! r' = None)
  ∧ heap (make_predictions parse_datetime art r w).2 !! r = Some df
  ∧ store_of (make_predictions parse_datetime art r w).2 = store_of w
  ∧ (∀ run total fraud w',
       upload_tab parse_datetime art fault user_id timestamp upload_date run df w
         = (AnalysisCompleted total fraud, w') →
       files w' !! data_path_of user_id timestamp = Some df
       ∧ heap w' !! fresh (dom (heap w)) = Some df).
Proof.
  intros Hr. split_and!.
  - by apply (preprocess_data_preserving parse_datetime art r w).
  - intros r' Hres.
    destruct (preprocess_data parse_datetime art r w) as [res w'] eqn:Hrun.
    simpl in Hres. subst res.
    apply preprocess_data_returns_copy in Hrun as ->.
    pose proof (is_fresh (dom (heap w))) as Hfresh.
    split.
    + intros Heq. apply Hfresh. apply elem_of_dom. rewrite Heq. by exists df.
    + by apply not_elem_of_dom.
  - by apply (make_predictions_preserving parse_datetime art r w).
  - apply (make_predictions_preserving parse_datetime art r w).
  - intros run total fraud w' Hrun.
    destruct (upload_tab_completed _ _ _ _ _ _ _ _ _ _ _ _ Hrun)
      as (labels & _ & _ & _ & _ & _ & Hheap & Hfiles & _).
    split; [|done].
    rewrite Hfiles, lookup_insert_ne by (apply not_eq_sym, data_path_ne_pred_path).
    apply lookup_insert_eq.
Qed.

End FrameClaim.

Lemma make_predictions_leaves_table_witness :
  heap (preprocess_data Demo.iso_date Demo.art 0%nat (Demo.holding Demo.three_visits)).2 !! 0%nat
    = Some Demo.three_visits
  ∧ (∀ r', (preprocess_data Demo.iso_date Demo.art 0%nat (Demo.holding Demo.three_visits)).1 = inr r' →
           r' ≠ 0%nat ∧ heap (Demo.holding Demo.three_visits) !! r' = None)
  ∧ heap (make_predictions Demo.iso_date Demo.art 0%nat (Demo.holding Demo.three_visits)).2 !! 0%nat
    = Some Demo.three_visits
  ∧ store_of (make_predictions Demo.iso_date Demo.art 0%nat (Demo.holding Demo.three_visits)).2
    = store_of (Demo.holding Demo.three_visits)
  ∧ (∀ run total fraud w',
       upload_tab Demo.iso_date Demo.art Demo.no_fault 7 "20240301120000"
         "2024-03-01 12:00:00" run Demo.three_visits (Demo.holding Demo.three_visits)
         = (AnalysisCompleted total fraud, w') →
       files w' !! data_path_of 7 "20240301120000" = Some Demo.three_visits
       ∧ heap w' !! fresh (dom (heap (Demo.holding Demo.three_visits))) = Some Demo.three_visits).
Proof.
  apply (make_predictions_leaves_table Demo.iso_date Demo.art Demo.no_fault 7
           "20240301120000" "2024-03-01 12:00:00" (Demo.holding Demo.three_visits) 0%nat
           Demo.three_visits).
  vm_compute. reflexivity.
Defined.

(** The processed copy of the three visits holds codes and scaled numbers; the
    frame that was passed in still holds the raw values. *)
Example three_visits_preprocessed :
  let run := preprocess_data Demo.iso_date Demo.art 0%nat (Demo.holding Demo.three_visits) in
  run.1 = inr 1%nat
  ∧ heap run.2 !! 0%nat = Some Demo.three_visits
  ∧ (cols <$> heap run.2 !! 1%nat)
    = Some [("Age", [Num (-3 # 5); Num (11 # 10); Num (-13 # 10)]);
            ("Gender", [Num 1; Num 0; Num 0]);
            ("Diagnosis", [Num 1; Num 2; Num 0]);
            ("Amount Billed", [Num (-2 # 5); Num 3; Num (2 # 5)]);
            ("Length of Stay", [Num (-1 # 2); Num (-1 # 2); Num (-3 # 2)])].
Proof. vm_compute. done. Qed.

(** ** The table of predictions *)

Section OutputArtifact.

Variable parse_datetime : cell → option Z.
Variable art : artifacts.
Variable fault : storage_step → bool.
Variables (user_id : nat) (timestamp upload_date : string).



(** The processed frame of a table with the required columns and no other has
    the five feature columns, so a classifier that labels such a table has
    five features. *)
Lemma processed_frame_plain_columns df :
  columns df = required_columns →
  columns (processed_frame parse_datetime art df) = feature_columns.
Proof.
  intros Hcols. unfold columns, processed_frame in *. cbn [cols].
  names_tac Hcols.
Qed.

Lemma plain_table_classified df labels :
  columns df = required_columns →
  classify art (processed_frame parse_datetime art df) = inr labels →
  n_features art = 5%nat.
Proof.
  intros Hcols Hclass. unfold classify in Hclass.
  destruct (predict art (processed_frame parse_datetime art df)) as [|y] eqn:Hy; [done|].
  apply predict_inr in Hy as (Hlen & _ & _). rewrite <- Hlen.
  rewrite <- (length_fmap fst). fold (columns (processed_frame parse_datetime art df)).
  by rewrite processed_frame_plain_columns.
Qed.


(** Whatever the columns of the upload, a column other than "Prediction" is
    found in the table of predictions as it was uploaded. *)
Lemma predictions_table_keeps_columns run uploaded w total fraud w' c :
  upload_tab parse_datetime art fault user_id timestamp upload_date run uploaded w
    = (AnalysisCompleted total fraud, w') →
  c ≠ "Prediction" →
  ∃ out, files w' !! pred_path_of user_id timestamp = Some out
         ∧ columns out = columns uploaded ++
                           (if decide ("Prediction" ∈ columns uploaded)
                            then [] else ["Prediction"])
         ∧ lookup_col c (cols out) = lookup_col c (cols uploaded).
Proof.
  intros Hrun Hc.
  destruct (upload_tab_completed _ _ _ _ _ _ _ _ _ _ _ _ Hrun)
    as (labels & _ & _ & _ & _ & _ & _ & Hfiles & _).
  exists (with_predictions uploaded labels).
  split; [rewrite Hfiles; apply lookup_insert_eq|].
  unfold with_predictions, columns. simpl. split.
  - case_decide as Hin.
    + rewrite set_col_columns by done. by rewrite app_nil_r.
    + rewrite set_col_fresh by done. by rewrite fmap_app.
  - rewrite lookup_col_set_col. by rewrite decide_False.
Qed.

End OutputArtifact.


(** An upload with a column "Length of Stay" of its own completes: the output
    has that column as it was uploaded, and the labels after it. An upload with
    a column "Prediction" of its own is refused by the classifier, and nothing
    is stored. *)
Example extra_columns_of_an_upload :
  (let run := Demo.run_upload Demo.no_fault Demo.with_length_of_stay Demo.w0 in
   run.1 = AnalysisCompleted 2 1
   ∧ (columns <$> files run.2 !! pred_path_of 7 "20240301120000")
     = Some (required_columns ++ ["Length of Stay"; "Prediction"])
   ∧ (lookup_col "Length of Stay"
        <$> (cols <$> files run.2 !! pred_path_of 7 "20240301120000"))
     = Some (Some [Str "two nights"; Str "two nights"]))
  ∧ (let run := Demo.run_upload Demo.no_fault Demo.with_prediction_column Demo.w0 in
     run.1 = ProcessingError
               (ModelError "DataFrame.dtypes for data must be int, float, bool or category")
     ∧ files run.2 = files Demo.w0 ∧ conn run.2 = conn Demo.w0
     ∧ disk run.2 = disk Demo.w0).
Proof. split; split_and!; vm_compute; reflexivity. Qed.

(** ** Atomicity of an upload *)

Section Atomicity.

Variable parse_datetime : cell → option Z.
Variable art : artifacts.
Variable fault : storage_step → bool.
Variables (user_id : nat) (timestamp upload_date : string).

(** C7, amended. An upload that ends in the check of the columns, before the
    button is pressed, or in an exception of the pipeline that is not a
    storage failure leaves files and database as they were. An upload that
    completes has written the uploaded table and the table of predictions,
    inserted the dataset row and its summary row, and committed both. An
    upload that ends with the error of a storage step had its table
    classified; the step is the first one that failed, and there is no
    rollback: the files and the rows that the steps before it wrote stay,
    the rows uncommitted. *)
Theorem upload_all_or_nothing_outside_storage run uploaded w result w' :
  upload_tab parse_datetime art fault user_id timestamp upload_date run uploaded w
    = (result, w') →
  match result with
  | AnalysisCompleted total fraud =>
      ∃ df_predicted ds row,
        files w' !! data_path_of user_id timestamp = Some uploaded
        ∧ files w' !! pred_path_of user_id timestamp = Some df_predicted
        ∧ datasets (disk w') = datasets (conn w) ++ [ds]
        ∧ ds_data_path ds = data_path_of user_id timestamp
        ∧ ds_predictions_path ds = pred_path_of user_id timestamp
        ∧ predictions (disk w') = predictions (conn w) ++ [row]
        ∧ pr_dataset_id row = ds_id ds
        ∧ conn w' = disk w'
  | ProcessingError (StorageError s) =>
      fault s = true
      ∧ (∀ s', earlier s' s = true → fault s' = false)
      ∧ ∃ labels,
          classify art (processed_frame parse_datetime art uploaded) = inr labels
          ∧ length labels = nrows uploaded
          ∧ files w' = files_written s user_id timestamp uploaded labels (files w)
          ∧ conn w'
            = rows_inserted s user_id timestamp upload_date uploaded labels (conn w)
          ∧ disk w' = disk w
  | _ => store_of w' = store_of w
  end.
Proof.
  destruct result as [missing| |e|total fraud].
  - unfold upload_tab, read_csv. case_decide; [by intros [= _ <-]|].
    destruct run; [|done].
    by destruct (run_fraud_detection _ _ _ _ _ _ _ _) as [[?|[??]] ?].
  - unfold upload_tab, read_csv. case_decide; [done|].
    destruct run; [|by intros [= <-]].
    by destruct (run_fraud_detection _ _ _ _ _ _ _ _) as [[?|[??]] ?].
  - unfold upload_tab, read_csv. case_decide; [done|].
    destruct run; [|done].
    set (r := fresh (dom (heap w))).
    set (w1 := set_heap (<[r := uploaded]> (heap w)) w).
    assert (heap w1 !! r = Some uploaded) as Hr by apply lookup_insert_eq.
    pose proof (run_fraud_detection_cases parse_datetime art fault user_id timestamp
                  upload_date r w1 uploaded Hr) as Hcases.
    destruct (run_fraud_detection _ _ _ _ _ _ _ _) as [[e'|[t f]] w2] eqn:Hrf; [|done].
    intros [= -> ->]. destruct e; try (apply Hcases; by intros s0).
    exact (run_fraud_detection_storage_error parse_datetime art fault user_id timestamp
             upload_date r w1 uploaded s w' Hr Hrf).
  - intros Hrun.
    destruct (upload_tab_completed _ _ _ _ _ _ _ _ _ _ _ _ Hrun)
      as (labels & _ & _ & _ & _ & _ & _ & Hfiles & Hds & Hps & Hdisk & _).
    eexists _, _, _. rewrite Hdisk, Hfiles, Hds, Hps.
    split; [|split; [apply lookup_insert_eq|done]].
    rewrite lookup_insert_ne by (apply not_eq_sym, data_path_ne_pred_path).
    apply lookup_insert_eq.
Qed.

End Atomicity.

Lemma upload_all_or_nothing_outside_storage_witness :
  Demo.fail_at InsertSummary InsertSummary = true
  ∧ (∀ s', earlier s' InsertSummary = true → Demo.fail_at InsertSummary s' = false)
  ∧ ∃ labels,
      classify Demo.art (processed_frame Demo.iso_date Demo.art Demo.three_visits)
      = inr labels
      ∧ length labels = nrows Demo.three_visits
      ∧ files (Demo.run_upload (Demo.fail_at InsertSummary) Demo.three_visits Demo.w0).2
        = files_written InsertSummary 7 "20240301120000" Demo.three_visits labels
            (files Demo.w0)
      ∧ conn (Demo.run_upload (Demo.fail_at InsertSummary) Demo.three_visits Demo.w0).2
        = rows_inserted InsertSummary 7 "20240301120000" "2024-03-01 12:00:00"
            Demo.three_visits labels (conn Demo.w0)
      ∧ disk (Demo.run_upload (Demo.fail_at InsertSummary) Demo.three_visits Demo.w0).2
        = disk Demo.w0.
Proof.
  apply (upload_all_or_nothing_outside_storage Demo.iso_date Demo.art
           (Demo.fail_at InsertSummary) 7 "20240301120000" "2024-03-01 12:00:00" true
           Demo.three_visits Demo.w0 (ProcessingError (StorageError InsertSummary))).
  vm_compute. reflexivity.
Defined.

(** C7, as stated, fails when a storage step fails. When the second file
    cannot be written, the uploaded table stays in [data/] with neither
    predictions nor summary. When the commit fails, both files stay and both
    rows stay visible on the connection, uncommitted. *)
Lemma storage_failure_leaves_partial_state :
  (let run := Demo.run_upload (Demo.fail_at WritePredictions) Demo.three_visits Demo.w0 in
   run.1 = ProcessingError (StorageError WritePredictions)
   ∧ files run.2 !! data_path_of 7 "20240301120000" = Some Demo.three_visits
   ∧ files run.2 !! pred_path_of 7 "20240301120000" = None
   ∧ predictions (conn run.2) = [] ∧ predictions (disk run.2) = []
   ∧ store_of run.2 ≠ store_of Demo.w0)
  ∧ (let run := Demo.run_upload (Demo.fail_at Commit) Demo.three_visits Demo.w0 in
     run.1 = ProcessingError (StorageError Commit)
     ∧ files run.2 !! data_path_of 7 "20240301120000" = Some Demo.three_visits
     ∧ length (datasets (conn run.2)) = 1%nat
     ∧ length (predictions (conn run.2)) = 1%nat
     ∧ disk run.2 = Demo.empty_db
     ∧ store_of run.2 ≠ store_of Demo.w0).
Proof.
  assert (∀ w, files w !! data_path_of 7 "20240301120000" = Some Demo.three_visits →
            store_of w ≠ store_of Demo.w0) as Hne.
  { intros w Hw Heq. apply (f_equal (λ st, st.1.1 !! data_path_of 7 "20240301120000")) in Heq.
    simpl in Heq. rewrite Hw in Heq. vm_compute in Heq. discriminate Heq. }
  split; split_and!; try (vm_compute; reflexivity); apply Hne; vm_compute; reflexivity.
Qed.

(** ** Validated tables *)

Lemma has_column_true df c :
  has_column df c = true → ∃ s, lookup_col c (cols df) = Some s ∧ length s = nrows df.
Proof.
  unfold has_column. destruct (lookup_col c (cols df)) as [s|]; [|done].
  intros H%bool_decide_eq_true. by exists s.
Qed.

Lemma column_all_true P df c s :
  column_all P df c = true → lookup_col c (cols df) = Some s →
  Forall (λ x, P x = true) s.
Proof.
  unfold column_all. intros H Hs. rewrite Hs in H. apply Forall_forall. intros x Hx.
  rewrite forallb_forall in H. apply H. by apply list_elem_of_In.
Qed.



(** The columns of a validated table. *)
Lemma validated_columns parse_datetime df :
  validated parse_datetime df = true →
  ∃ admitted discharged gender diagnosis age amount,
    (lookup_col "Date Admitted" (cols df) = Some admitted
     ∧ lookup_col "Date Discharged" (cols df) = Some discharged
     ∧ lookup_col "Gender" (cols df) = Some gender
     ∧ lookup_col "Diagnosis" (cols df) = Some diagnosis
     ∧ lookup_col "Age" (cols df) = Some age
     ∧ lookup_col "Amount Billed" (cols df) = Some amount)
    ∧ (length admitted = nrows df ∧ length discharged = nrows df
       ∧ length gender = nrows df ∧ length diagnosis = nrows df
       ∧ length age = nrows df ∧ length amount = nrows df)
    ∧ Forall (parses parse_datetime) admitted
    ∧ Forall (parses parse_datetime) discharged.
Proof.
  unfold validated, required_columns. cbn [forallb].
  rewrite !andb_true_iff.
  intros [[(_ & H1 & H2 & H3 & H4 & H5 & H6 & _) Ha] Hd].
  destruct (has_column_true _ _ H1) as (admitted & Hc1 & Hl1).
  destruct (has_column_true _ _ H2) as (discharged & Hc2 & Hl2).
  destruct (has_column_true _ _ H3) as (age & Hc3 & Hl3).
  destruct (has_column_true _ _ H4) as (gender & Hc4 & Hl4).
  destruct (has_column_true _ _ H5) as (diagnosis & Hc5 & Hl5).
  destruct (has_column_true _ _ H6) as (amount & Hc6 & Hl6).
  exists admitted, discharged, gender, diagnosis, age, amount.
  split_and!; try done.
  - eapply Forall_impl; [exact (column_all_true _ _ _ _ Ha Hc1)|].
    intros c Hc. by apply bool_decide_eq_true in Hc.
  - eapply Forall_impl; [exact (column_all_true _ _ _ _ Hd Hc2)|].
    intros c Hc. by apply bool_decide_eq_true in Hc.
Qed.

Lemma validated_required_columns parse_datetime df c :
  validated parse_datetime df = true → c ∈ required_columns → c ∈ columns df.
Proof.
  unfold validated. rewrite !andb_true_iff. intros [[H _] _] Hc.
  rewrite forallb_forall in H. apply list_elem_of_In, H in Hc.
  destruct (has_column_true _ _ Hc) as (s & Hs & _).
  apply dec_stable. intros Hnot. apply lookup_col_None in Hnot. congruence.
Qed.

Section Encoding.

Variable parse_datetime : cell → option Z.
Variable art : artifacts.


Lemma make_predictions_of_failure r w e w' :
  preprocess_data parse_datetime art r w = (inl e, w') →
  make_predictions parse_datetime art r w = (inl e, w').
Proof. intros Hpre. unfold make_predictions. unfold bind at 1. by rewrite Hpre. Qed.


(** A validated table without rows is refused by the scaler. *)
Lemma preprocess_data_no_rows w r df :
  heap w !! r = Some df →
  validated parse_datetime df = true →
  nrows df = 0%nat →
  ∃ w', preprocess_data parse_datetime art r w = (inl EmptySamples, w')
        ∧ store_of w' = store_of w.
Proof.
  intros Hr Hvalid Hrows.
  destruct (validated_columns _ _ Hvalid)
    as (admitted & discharged & gender & diagnosis & age & amount
        & (Hc1 & Hc2 & Hc3 & Hc4 & Hc5 & Hc6) & (Hl1 & Hl2 & Hl3 & Hl4 & Hl5 & Hl6)
        & Hpa & Hpd).
  destruct (preprocess_data_validated parse_datetime art w r df admitted discharged
              gender diagnosis age amount Hr Hc1 Hc2 Hc3 Hc4 Hc5 Hc6
              Hl1 Hl2 Hl3 Hl4 Hl5 Hl6 Hpa Hpd) as (w' & Hstore & Hrun).
  rewrite Hrows in *.
  destruct diagnosis; [|done]. destruct age; [|done]. destruct amount; [|done].
  destruct admitted; [|done].
  exists w'. split; [exact Hrun | done].
Qed.

End Encoding.

(** ** What the transformer rejects, and what it does not *)

Lemma filter_none {A} (P : A → Prop) `{!∀ x, Decision (P x)} (l : list A) :
  Forall (λ x, ¬ P x) l → filter P l = [].
Proof.
  induction 1 as [|x l Hx _ IH]; [done|]. by rewrite filter_cons_False.
Qed.



Section TransformerClaims.

Variable parse_datetime : cell → option Z.
Variable art : artifacts.

Lemma run_fraud_detection_of_failure fault user_id timestamp upload_date r w e w' :
  make_predictions parse_datetime art r w = (inl e, w') →
  run_fraud_detection parse_datetime art fault user_id timestamp upload_date r w
  = (inl e, w').
Proof. intros H. unfold run_fraud_detection. unfold bind at 1. by rewrite H. Qed.

Lemma validated_not_missing df :
  validated parse_datetime df = true →
  ¬ filter (λ col, col ∉ columns df) required_columns ≠ [].
Proof.
  intros Hvalid Hmissing. apply Hmissing.
  apply filter_none, Forall_forall. intros c Hc Hnot.
  apply Hnot. by eapply validated_required_columns.
Qed.


(** X2. A file that has the header and no record is refused: the upload ends
    with the error of the scaler, which takes no table without rows, whatever
    the storage does, and files and database are what they were. *)
Theorem upload_without_rows_refused fault user_id timestamp upload_date uploaded w :
  validated parse_datetime uploaded = true →
  nrows uploaded = 0%nat →
  ∃ w',
    upload_tab parse_datetime art fault user_id timestamp upload_date true uploaded w
    = (ProcessingError EmptySamples, w')
    ∧ store_of w' = store_of w.
Proof.
  intros Hvalid Hrows.
  unfold upload_tab, read_csv.
  set (r := fresh (dom (heap w))).
  set (w1 := set_heap (<[r := uploaded]> (heap w)) w).
  assert (heap w1 !! r = Some uploaded) as Hr by apply lookup_insert_eq.
  destruct (preprocess_data_no_rows parse_datetime art w1 r uploaded Hr Hvalid Hrows)
    as (w' & Hrun & Hstore).
  exists w'. rewrite decide_False by (by apply validated_not_missing).
  rewrite (run_fraud_detection_of_failure _ _ _ _ _ _ _ _
             (make_predictions_of_failure _ _ _ _ _ _ Hrun)). done.
Qed.




End TransformerClaims.






(** A file with the header and no record ends with the error of the scaler. *)
Example header_only_upload :
  (Demo.run_upload Demo.no_fault Demo.header_only Demo.w0).1 = ProcessingError EmptySamples
  ∧ files (Demo.run_upload Demo.no_fault Demo.header_only Demo.w0).2 = files Demo.w0
  ∧ conn (Demo.run_upload Demo.no_fault Demo.header_only Demo.w0).2 = conn Demo.w0
  ∧ disk (Demo.run_upload Demo.no_fault Demo.header_only Demo.w0).2 = disk Demo.w0.
Proof. split_and!; vm_compute; reflexivity. Qed.

(** The upload with the diagnosis "Gout" ends with the error that names it. *)
Example unknown_diagnosis_upload :
  (Demo.run_upload Demo.no_fault Demo.unknown_diagnosis Demo.w0).1
    = ProcessingError (UnseenLabel (Str "Gout"))
  ∧ store_of (Demo.run_upload Demo.no_fault Demo.unknown_diagnosis Demo.w0).2
    = store_of Demo.w0.
Proof. split; by vm_compute. Qed.

(** ** National aggregation *)

Lemma union_columns_step_elem (acc l : list string) c :
  c ∈ foldl (λ acc c, if decide (c ∈ acc) then acc else acc ++ [c]) acc l
  ↔ c ∈ acc ∨ c ∈ l.
Proof.
  revert acc. induction l as [|x l IH]; intros acc; simpl.
  - rewrite elem_of_nil. tauto.
  - rewrite IH, elem_of_cons. case_decide as Hx.
    + split; [tauto|]. intros [?|[->|?]]; tauto.
    + rewrite elem_of_app, list_elem_of_singleton. tauto.
Qed.

Lemma elem_of_union_columns fs c :
  c ∈ union_columns fs ↔ ∃ f, f ∈ fs ∧ c ∈ columns f.
Proof.
  unfold union_columns. rewrite union_columns_step_elem, elem_of_nil.
  split.
  - intros [[]|Hc]. apply list_elem_of_join in Hc as (cs & Hc & Hcs).
    apply list_elem_of_fmap in Hcs as (f & -> & Hf). by exists f.
  - intros (f & Hf & Hc). right. apply list_elem_of_join.
    exists (columns f). split; [done|]. apply list_elem_of_fmap. by exists f.
Qed.

Lemma lookup_col_tabulate (g : string → list cell) names c :
  lookup_col c ((λ c, (c, g c)) <$> names) = if decide (c ∈ names) then Some (g c) else None.
Proof.
  induction names as [|x names IH].
  - destruct (decide (c ∈ [])) as [H|]; [by apply elem_of_nil in H | done].
  - cbn [fmap list_fmap lookup_col]. destruct (decide (x = c)) as [->|Hne].
    + by rewrite decide_True by left.
    + rewrite IH. destruct (decide (c ∈ names)) as [Hin|Hin].
      * by rewrite decide_True by (by right).
      * rewrite decide_False; [done|]. rewrite not_elem_of_cons. split; [congruence|done].
Qed.

Lemma lookup_col_pd_concat fs c :
  lookup_col c (cols (pd_concat fs))
  = if decide (c ∈ union_columns fs) then Some (mjoin (column_or_nan c <$> fs)) else None.
Proof. unfold pd_concat. simpl. apply lookup_col_tabulate. Qed.

Lemma is_batch_true f :
  is_batch f = true →
  ∃ labels, lookup_col "Prediction" (cols f) = Some labels
            ∧ length labels = nrows f
            ∧ Forall (λ c, is_label c = true) labels.
Proof.
  unfold is_batch. destruct (lookup_col "Prediction" (cols f)) as [labels|]; [|done].
  rewrite andb_true_iff, bool_decide_eq_true. intros [Hlen Hl].
  exists labels. split_and!; try done.
  apply Forall_forall. intros c Hc. rewrite forallb_forall in Hl.
  by apply Hl, list_elem_of_In.
Qed.

Lemma count_fraud_app s1 s2 : count_fraud (s1 ++ s2) = (count_fraud s1 + count_fraud s2)%nat.
Proof. unfold count_fraud. by rewrite filter_app, length_app. Qed.

Lemma elem_of_distinct s x : x ∈ distinct s ↔ x ∈ s.
Proof.
  induction s as [|c s IH]; simpl; [done|].
  rewrite !elem_of_cons, list_elem_of_filter, IH.
  destruct (decide (x = c)); tauto.
Qed.

Lemma NoDup_distinct s : NoDup (distinct s).
Proof.
  induction s as [|c s IH]; simpl; [constructor|].
  constructor; [|by apply NoDup_filter].
  rewrite list_elem_of_filter. tauto.
Qed.

Lemma occurrences_cons v c s :
  occurrences v (c :: s) = ((if decide (c = v) then 1 else 0) + occurrences v s)%nat.
Proof.
  unfold occurrences. rewrite filter_cons. by destruct (decide (c = v)).
Qed.

Lemma sum_indicator (c : cell) ks :
  NoDup ks →
  sum_list_with (λ v, if decide (c = v) then 1 else 0)%nat ks
  = (if decide (c ∈ ks) then 1 else 0)%nat.
Proof.
  induction 1 as [|k ks Hk _ IH].
  - destruct (decide (c ∈ [])) as [H|]; [by apply elem_of_nil in H | done].
  - cbn [sum_list_with]. rewrite IH. destruct (decide (c = k)) as [->|Hne].
    + rewrite (decide_False (P := k ∈ ks)) by done.
      by rewrite decide_True by left.
    + destruct (decide (c ∈ ks)) as [Hin|Hin].
      * by rewrite decide_True by (by right).
      * rewrite decide_False; [done|]. rewrite not_elem_of_cons. done.
Qed.

Lemma sum_list_with_plus {A} (f g : A → nat) l :
  sum_list_with (λ x, f x + g x)%nat l = (sum_list_with f l + sum_list_with g l)%nat.
Proof. induction l as [|x l IH]; simpl; [done|]. rewrite IH. lia. Qed.

Lemma sum_list_with_ext {A} (f g : A → nat) l :
  (∀ x, f x = g x) → sum_list_with f l = sum_list_with g l.
Proof. intros H. induction l as [|x l IH]; simpl; [done|]. by rewrite H, IH. Qed.

Lemma sum_list_fmap_with {A} (f : A → nat) l : sum_list (f <$> l) = sum_list_with f l.
Proof.
  induction l as [|x l IH]; [done|].
  simpl. f_equal. exact IH.
Qed.

(** The counts of distinct values add up to the number of cells that hold one
    of them. *)
Lemma sum_occurrences ks s :
  NoDup ks →
  sum_list_with (λ v, occurrences v s) ks = length (filter (λ c, c ∈ ks) s).
Proof.
  intros Hks. induction s as [|c s IH].
  - unfold occurrences. simpl. clear Hks. induction ks as [|k ks IHk]; simpl; done.
  - rewrite (sum_list_with_ext _ _ _ (λ v, occurrences_cons v c s)).
    rewrite sum_list_with_plus, IH, sum_indicator by done.
    rewrite filter_cons. by destruct (decide (c ∈ ks)).
Qed.

Lemma filter_all {A} (P : A → Prop) `{!∀ x, Decision (P x)} (l : list A) :
  Forall P l → filter P l = l.
Proof.
  induction 1 as [|x l Hx _ IH]; [done|]. by rewrite filter_cons_True, IH.
Qed.

Lemma value_counts_keys s :
  (value_counts s).*1 = distinct (filter (λ c, isnull c = false) s).
Proof.
  unfold value_counts. rewrite <- list_fmap_compose. simpl.
  apply list_fmap_id.
Qed.

Lemma value_counts_total s :
  sum_list (value_counts s).*2 = length (filter (λ c, isnull c = false) s).
Proof.
  unfold value_counts. rewrite <- list_fmap_compose, sum_list_fmap_with.
  rewrite (sum_list_with_ext _ (λ v, occurrences v (filter (λ c, isnull c = false) s)))
    by done.
  rewrite sum_occurrences by apply NoDup_distinct.
  f_equal. apply filter_all, Forall_forall. intros c Hc. by apply elem_of_distinct.
Qed.

Lemma value_counts_Permutation s s' : s ≡ₚ s' → value_counts s ≡ₚ value_counts s'.
Proof.
  intros Hs. unfold value_counts.
  set (present := filter (λ c, isnull c = false) s).
  set (present' := filter (λ c, isnull c = false) s').
  assert (present ≡ₚ present') as Hp by (unfold present, present'; by rewrite Hs).
  assert (distinct present ≡ₚ distinct present') as Hd.
  { apply NoDup_Permutation; [apply NoDup_distinct..|].
    intros x. rewrite !elem_of_distinct. by rewrite Hp. }
  rewrite Hd.
  assert ((λ v, (v, occurrences v present)) <$> distinct present'
          = (λ v, (v, occurrences v present')) <$> distinct present') as ->; [|done].
  apply list_fmap_ext. intros i v _. unfold occurrences. by rewrite Hp.
Qed.

Lemma count_fraud_Permutation s s' : s ≡ₚ s' → count_fraud s = count_fraud s'.
Proof. intros Hs. unfold count_fraud. by rewrite Hs. Qed.

Lemma is_label_not_null s :
  Forall (λ c, is_label c = true) s → filter (λ c, isnull c = false) s = s.
Proof.
  intros H. apply filter_all. eapply Forall_impl; [exact H|]. by intros [].
Qed.

Lemma mjoin_cons {A} (l : list A) (ls : list (list A)) : mjoin (l :: ls) = l ++ mjoin ls.
Proof. done. Qed.

Lemma column_or_nan_batch f labels :
  lookup_col "Prediction" (cols f) = Some labels → column_or_nan "Prediction" f = labels.
Proof. intros H. unfold column_or_nan. by rewrite H. Qed.

Lemma batches_labels fs :
  Forall (λ f, is_batch f = true) fs →
  length (mjoin (column_or_nan "Prediction" <$> fs)) = sum_list (nrows <$> fs)
  ∧ Forall (λ c, is_label c = true) (mjoin (column_or_nan "Prediction" <$> fs)).
Proof.
  induction 1 as [|f fs Hf _ IH]; [by split|].
  destruct (is_batch_true _ Hf) as (labels & Hcol & Hlen & Hlab).
  destruct IH as [IH1 IH2].
  rewrite !fmap_cons, mjoin_cons, (column_or_nan_batch _ _ Hcol).
  split; [rewrite length_app; simpl; lia | by apply Forall_app].
Qed.

Lemma summary_sum_batches fs :
  Forall (λ f, is_batch f = true) fs →
  summary_sum (batch_summary <$> fs)
  = {| total_cases := Z.of_nat (sum_list (nrows <$> fs));
       fraud_count :=
         Z.of_nat (count_fraud (mjoin (column_or_nan "Prediction" <$> fs)));
       non_fraud_count :=
         Z.of_nat (sum_list (nrows <$> fs))
         - Z.of_nat (count_fraud (mjoin (column_or_nan "Prediction" <$> fs))) |}.
Proof.
  induction 1 as [|f fs Hf _ IH]; [done|].
  destruct (is_batch_true _ Hf) as (labels & Hcol & Hlen & Hlab).
  rewrite !fmap_cons, mjoin_cons, (column_or_nan_batch _ _ Hcol).
  cbn [summary_sum foldr]. fold (summary_sum (batch_summary <$> fs)). rewrite IH.
  unfold summary_add, batch_summary. rewrite Hcol.
  simpl. rewrite !count_fraud_app. f_equal; lia.
Qed.

Lemma batches_prediction_column fs :
  Forall (λ f, is_batch f = true) fs →
  fs ≠ [] →
  lookup_col "Prediction" (cols (pd_concat fs))
  = Some (mjoin (column_or_nan "Prediction" <$> fs)).
Proof.
  intros Hbatches Hne. rewrite lookup_col_pd_concat. rewrite decide_True; [done|].
  destruct Hbatches as [|f fs' Hf _]; [done|].
  apply elem_of_union_columns. exists f. split; [left|].
  destruct (is_batch_true _ Hf) as (labels & Hcol & _).
  apply dec_stable. intros Hnot. apply lookup_col_None in Hnot. congruence.
Qed.

(** The national view of a list of batches, from their summaries. *)
Lemma national_overview_batches fs :
  Forall (λ f, is_batch f = true) fs →
  national_overview fs
  = if decide (fs = []) then NoDataFiles
    else if decide (total_cases (summary_sum (batch_summary <$> fs)) > 0)
         then Overview (total_cases (summary_sum (batch_summary <$> fs)))
                       (fraud_count (summary_sum (batch_summary <$> fs)))
                       (non_fraud_count (summary_sum (batch_summary <$> fs)))
                       (value_counts (mjoin (column_or_nan "Prediction" <$> fs)))
         else NoDataAvailable.
Proof.
  intros Hbatches. destruct (decide (fs = [])) as [->|Hne]; [done|].
  rewrite summary_sum_batches by done. cbn [total_cases fraud_count non_fraud_count].
  destruct fs as [|f fs']; [done|].
  unfold national_overview. rewrite batches_prediction_column by done.
  done.
Qed.

Lemma summary_sum_Permutation fs fs' :
  Forall (λ f, is_batch f = true) fs → fs ≡ₚ fs' →
  summary_sum (batch_summary <$> fs) = summary_sum (batch_summary <$> fs').
Proof.
  intros Hbatches Hperm.
  assert (Forall (λ f, is_batch f = true) fs') as Hbatches' by (by rewrite <- Hperm).
  rewrite !summary_sum_batches by done.
  assert (sum_list (nrows <$> fs) = sum_list (nrows <$> fs')) as -> by (by rewrite Hperm).
  assert (count_fraud (mjoin (column_or_nan "Prediction" <$> fs))
          = count_fraud (mjoin (column_or_nan "Prediction" <$> fs'))) as ->; [|done].
  apply count_fraud_Permutation. by rewrite Hperm.
Qed.

(** C6. For batches, in any number: the national view shows the componentwise
    sum of their summaries, with a breakdown of distinct labels whose counts add
    up to the total, as soon as there is a row at all, and nothing otherwise;
    the fraud and non-fraud counts of the sum add up to its total; and batches
    in another order give the same totals and the same pairs of the
    breakdown. *)
Theorem national_aggregation fs fs' :
  Forall (λ f, is_batch f = true) fs →
  fs ≡ₚ fs' →
  same_view (national_overview fs) (national_overview fs')
  ∧ (total_cases (summary_sum (batch_summary <$> fs)) > 0 →
     ∃ breakdown,
       national_overview fs
       = Overview (total_cases (summary_sum (batch_summary <$> fs)))
                  (fraud_count (summary_sum (batch_summary <$> fs)))
                  (non_fraud_count (summary_sum (batch_summary <$> fs)))
                  breakdown
       ∧ Z.of_nat (sum_list breakdown.*2)
         = total_cases (summary_sum (batch_summary <$> fs))
       ∧ NoDup breakdown.*1
       ∧ breakdown = value_counts (mjoin (column_or_nan "Prediction" <$> fs)))
  ∧ (total_cases (summary_sum (batch_summary <$> fs)) ≤ 0 →
     national_overview fs = NoDataFiles ∨ national_overview fs = NoDataAvailable)
  ∧ fraud_count (summary_sum (batch_summary <$> fs))
    + non_fraud_count (summary_sum (batch_summary <$> fs))
    = total_cases (summary_sum (batch_summary <$> fs)).
Proof.
  intros Hbatches Hperm.
  assert (Forall (λ f, is_batch f = true) fs') as Hbatches' by (by rewrite <- Hperm).
  rewrite !national_overview_batches by done.
  rewrite <- (summary_sum_Permutation fs fs') by done.
  split_and!.
  - destruct (decide (fs = [])) as [->|Hne].
    + apply Permutation_nil_l in Hperm. subst fs'. done.
    + rewrite (decide_False (P := fs' = [])).
      2:{ intros ->. by apply Permutation_nil_r in Hperm. }
      case_decide; [|done]. simpl. split_and!; try done.
      apply value_counts_Permutation. by rewrite Hperm.
  - intros Hpos. destruct (decide (fs = [])) as [->|Hne]; [simpl in Hpos; lia|].
    rewrite decide_True by done. eexists. split; [done|].
    destruct (batches_labels fs Hbatches) as [Hlen Hlab].
    split_and!; [| |done].
    + rewrite value_counts_total, (is_label_not_null _ Hlab), Hlen.
      by rewrite summary_sum_batches.
    + rewrite value_counts_keys. apply NoDup_distinct.
  - intros Hzero. destruct (decide (fs = [])); [by left|].
    right. by rewrite decide_False by lia.
  - rewrite summary_sum_batches by done. simpl. lia.
Qed.

Lemma national_aggregation_witness :
  same_view (national_overview [Demo.batch_a; Demo.batch_b])
            (national_overview [Demo.batch_b; Demo.batch_a])
  ∧ (total_cases (summary_sum (batch_summary <$> [Demo.batch_a; Demo.batch_b])) > 0 →
     ∃ breakdown,
       national_overview [Demo.batch_a; Demo.batch_b]
       = Overview
           (total_cases (summary_sum (batch_summary <$> [Demo.batch_a; Demo.batch_b])))
           (fraud_count (summary_sum (batch_summary <$> [Demo.batch_a; Demo.batch_b])))
           (non_fraud_count (summary_sum (batch_summary <$> [Demo.batch_a; Demo.batch_b])))
           breakdown
       ∧ Z.of_nat (sum_list breakdown.*2)
         = total_cases (summary_sum (batch_summary <$> [Demo.batch_a; Demo.batch_b]))
       ∧ NoDup breakdown.*1
       ∧ breakdown
         = value_counts
             (mjoin (column_or_nan "Prediction" <$> [Demo.batch_a; Demo.batch_b])))
  ∧ (total_cases (summary_sum (batch_summary <$> [Demo.batch_a; Demo.batch_b])) ≤ 0 →
     national_overview [Demo.batch_a; Demo.batch_b] = NoDataFiles
     ∨ national_overview [Demo.batch_a; Demo.batch_b] = NoDataAvailable)
  ∧ fraud_count (summary_sum (batch_summary <$> [Demo.batch_a; Demo.batch_b]))
    + non_fraud_count (summary_sum (batch_summary <$> [Demo.batch_a; Demo.batch_b]))
    = total_cases (summary_sum (batch_summary <$> [Demo.batch_a; Demo.batch_b])).
Proof.
  apply (national_aggregation [Demo.batch_a; Demo.batch_b] [Demo.batch_b; Demo.batch_a]).
  - repeat constructor.
  - apply perm_swap.
Defined.

(** The scenario of the specification: batches with the summaries (10, 2, 8)
    and (5, 1, 4) give (15, 3, 12) nationally, in either order, and the counts
    of the breakdown add up to 15. *)
Example two_batches_nationally :
  batch_summary Demo.batch_a
    = {| total_cases := 10; fraud_count := 2; non_fraud_count := 8 |}
  ∧ batch_summary Demo.batch_b
    = {| total_cases := 5; fraud_count := 1; non_fraud_count := 4 |}
  ∧ national_overview [Demo.batch_a; Demo.batch_b]
    = Overview 15 3 12
        [(Str "No Fraud", 12%nat); (Str "Billing Fraud", 2%nat);
         (Str "Phantom Billing", 1%nat)]
  ∧ national_overview [Demo.batch_b; Demo.batch_a]
    = Overview 15 3 12
        [(Str "No Fraud", 12%nat); (Str "Billing Fraud", 2%nat);
         (Str "Phantom Billing", 1%nat)]
  ∧ (12 + 2 + 1 = 15)%nat.
Proof. split_and!; by vm_compute. Qed.

(** The national tab reads the files that the rows of [datasets] point to:
    after two uploads it shows the sum of their two summaries. *)
Example national_analytics_after_uploads :
  let w1 :=
    (upload_tab Demo.iso_date Demo.art Demo.no_fault 7 "20240301120000"
       "2024-03-01 12:00:00" true Demo.three_visits Demo.w0).2 in
  let w2 :=
    (upload_tab Demo.iso_date Demo.art Demo.no_fault 8 "20240302090000"
       "2024-03-02 09:00:00" true Demo.gender_other w1).2 in
  national_analytics w2
  = Overview 5 2 3 [(Str "No Fraud", 3%nat); (Str "Billing Fraud", 2%nat)].
Proof. by vm_compute. Qed.

(** * Further properties of the code *)

(** ** Dates that cannot be read *)

Section InvalidDates.

Variable parse_datetime : cell → option Z.
Variable art : artifacts.

Lemma to_datetime_null s c :
  c ∈ s → parse_datetime c = None →
  existsb isnull (to_datetime parse_datetime s) = true.
Proof.
  intros Hc Hnone. apply existsb_exists. exists NaN. split; [|done].
  apply list_elem_of_In, list_elem_of_fmap. exists c. by rewrite Hnone.
Qed.

(** A frame whose two date columns are there, with a cell that is not a date
    in one of them, makes [preprocess_data] raise its own ValueError. *)
Lemma preprocess_data_invalid_date w r df admitted discharged c :
  heap w !! r = Some df →
  lookup_col "Date Admitted" (cols df) = Some admitted →
  lookup_col "Date Discharged" (cols df) = Some discharged →
  length admitted = nrows df → length discharged = nrows df →
  c ∈ admitted ∨ c ∈ discharged → parse_datetime c = None →
  (preprocess_data parse_datetime art r w).1 = inl InvalidDateFormat.
Proof.
  intros Hr Ha Hd Hla Hld Hc Hnone.
  destruct (preprocess_data parse_datetime art r w) as [res w'] eqn:Hrun.
  unfold preprocess_data in Hrun.
  rewrite (bind_df_copy _ _ _ _ Hr) in Hrun.
  set (r' := fresh (dom (heap w))) in *.
  erewrite bind_getitem in Hrun; [|look|col; exact Ha].
  erewrite bind_setitem in Hrun by look. simpl nrows in Hrun.
  rewrite decide_True in Hrun by (unfold to_datetime; by rewrite length_fmap).
  erewrite bind_getitem in Hrun; [|look|col; exact Hd].
  erewrite bind_setitem in Hrun by look. simpl nrows in Hrun.
  rewrite decide_True in Hrun by (unfold to_datetime; by rewrite length_fmap).
  erewrite bind_getitem in Hrun; [|look|col].
  erewrite bind_getitem in Hrun; [|look|col].
  assert (existsb isnull (to_datetime parse_datetime admitted)
          || existsb isnull (to_datetime parse_datetime discharged) = true) as Hnull.
  { apply orb_true_iff. destruct Hc as [Hc|Hc]; [left|right]; by eapply to_datetime_null. }
  rewrite Hnull in Hrun. by injection Hrun as <- _.
Qed.

(** X1. An upload that has the required columns but a cell in "Date Admitted"
    or "Date Discharged" that [pd.to_datetime] cannot read (a missing date
    included) ends, whatever else it holds, with the error "Invalid date
    format"; no row is classified and files and database stay as they were. *)
Theorem invalid_date_rejects_upload fault user_id timestamp upload_date uploaded w
    admitted discharged c :
  (∀ col, col ∈ required_columns → col ∈ columns uploaded) →
  lookup_col "Date Admitted" (cols uploaded) = Some admitted →
  lookup_col "Date Discharged" (cols uploaded) = Some discharged →
  length admitted = nrows uploaded → length discharged = nrows uploaded →
  c ∈ admitted ∨ c ∈ discharged → parse_datetime c = None →
  ∃ w', upload_tab parse_datetime art fault user_id timestamp upload_date true uploaded w
          = (ProcessingError InvalidDateFormat, w')
        ∧ store_of w' = store_of w.
Proof.
  intros Hcols Ha Hd Hla Hld Hc Hnone.
  unfold upload_tab, read_csv.
  set (r := fresh (dom (heap w))).
  set (w1 := set_heap (<[r := uploaded]> (heap w)) w).
  assert (heap w1 !! r = Some uploaded) as Hr by apply lookup_insert_eq.
  pose proof (preprocess_data_invalid_date w1 r uploaded admitted discharged c
                Hr Ha Hd Hla Hld Hc Hnone) as Hpre.
  pose proof (preprocess_data_preserving parse_datetime art r w1) as [Hstore _].
  destruct (preprocess_data parse_datetime art r w1) as [res w'] eqn:Hrun.
  simpl in Hpre, Hstore. subst res.
  exists w'. rewrite decide_False.
  - rewrite (run_fraud_detection_of_failure _ _ _ _ _ _ _ _ _ _
               (make_predictions_of_failure _ _ _ _ _ _ Hrun)). done.
  - intros Hmissing. apply Hmissing.
    apply filter_none, Forall_forall. intros col Hcol Hnot. by apply Hnot, Hcols.
Qed.

End InvalidDates.

Lemma invalid_date_rejects_upload_witness :
  ∃ w', upload_tab Demo.iso_date Demo.art Demo.no_fault 7 "20240301120000"
          "2024-03-01 12:00:00" true Demo.unreadable_date Demo.w0
          = (ProcessingError InvalidDateFormat, w')
        ∧ store_of w' = store_of Demo.w0.
Proof.
  apply (invalid_date_rejects_upload Demo.iso_date Demo.art Demo.no_fault 7
           "20240301120000" "2024-03-01 12:00:00" Demo.unreadable_date Demo.w0
           [Str "2024-01-03"; Str "10/01/2024"] [Str "2024-01-05"; Str "2024-01-12"]
           (Str "10/01/2024")).
  - intros col Hcol. apply (bool_decide_unpack _).
    repeat (apply elem_of_cons in Hcol as [->|Hcol]; [by vm_compute|]).
    by apply elem_of_nil in Hcol.
  - vm_compute. reflexivity.
  - vm_compute. reflexivity.
  - vm_compute. reflexivity.
  - vm_compute. reflexivity.
  - left. apply (bool_decide_unpack _). vm_compute. exact I.
  - vm_compute. reflexivity.
Defined.

Lemma upload_without_rows_refused_witness :
  ∃ w',
    upload_tab Demo.iso_date Demo.art (Demo.fail_at WriteData) 7 "20240301120000"
      "2024-03-01 12:00:00" true Demo.header_only Demo.w0
    = (ProcessingError EmptySamples, w')
    ∧ store_of w' = store_of Demo.w0.
Proof.
  apply (upload_without_rows_refused Demo.iso_date Demo.art (Demo.fail_at WriteData) 7
           "20240301120000" "2024-03-01 12:00:00" Demo.header_only Demo.w0).
  - vm_compute. reflexivity.
  - vm_compute. reflexivity.
Defined.

(** ** The frame that the classifier is given *)

Section ClassifierInput.

Variable parse_datetime : cell → option Z.
Variable art : artifacts.


End ClassifierInput.


(** ** What a failing storage step leaves behind *)

Section StorageFaults.

Variable parse_datetime : cell → option Z.
Variable art : artifacts.
Variable fault : storage_step → bool.
Variables (user_id : nat) (timestamp upload_date : string).



End StorageFaults.


(** ** Retrying on a locked database *)

Lemma retry_loop_spec n outcome_of m s :
  match retry_loop n outcome_of (mkRetryLog m s) with
  | (Returned, log) =>
      ∃ k, (k < n)%nat
           ∧ (∀ j, (j < k)%nat → outcome_of (m + j)%nat = RaisesLocked)
           ∧ outcome_of (m + k)%nat = Succeeds
           ∧ log = mkRetryLog (S (m + k)) (s + k)
  | (Reraised a, log) =>
      ∃ k, (k < n)%nat
           ∧ (∀ j, (j < k)%nat → outcome_of (m + j)%nat = RaisesLocked)
           ∧ outcome_of (m + k)%nat = a
           ∧ (a = RaisesOperational ∨ a = RaisesIntegrity)
           ∧ log = mkRetryLog (S (m + k)) (s + k)
  | (StillLocked, log) =>
      (∀ j, (j < n)%nat → outcome_of (m + j)%nat = RaisesLocked)
      ∧ log = mkRetryLog (m + n) (s + n)
  end.
Proof.
  revert m s. induction n as [|n IH]; intros m s; simpl.
  - split; [intros j Hj; lia|]. f_equal; lia.
  - destruct (outcome_of m) eqn:Hm.
    + exists 0%nat. rewrite !Nat.add_0_r. split_and!; try done; [lia | intros j Hj; lia].
    + specialize (IH (S m) (S s)).
      destruct (retry_loop n outcome_of (mkRetryLog (S m) (S s))) as [[|a|] log].
      * destruct IH as (k & Hk & Hlocked & Hdone & ->). exists (S k).
        split_and!; [lia | | by rewrite <- Nat.add_succ_comm | f_equal; lia].
        intros [|j] Hj; [by rewrite Nat.add_0_r|].
        rewrite <- Nat.add_succ_comm. apply Hlocked. lia.
      * destruct IH as (k & Hk & Hlocked & Hdone & Ha & ->). exists (S k).
        split_and!; [lia | | by rewrite <- Nat.add_succ_comm | done | f_equal; lia].
        intros [|j] Hj; [by rewrite Nat.add_0_r|].
        rewrite <- Nat.add_succ_comm. apply Hlocked. lia.
      * destruct IH as (Hlocked & ->). split; [|f_equal; lia].
        intros [|j] Hj; [by rewrite Nat.add_0_r|].
        rewrite <- Nat.add_succ_comm. apply Hlocked. lia.
    + exists 0%nat. rewrite !Nat.add_0_r.
      split_and!; try done; [lia | intros j Hj; lia | by left].
    + exists 0%nat. rewrite !Nat.add_0_r.
      split_and!; try done; [lia | intros j Hj; lia | by right].
Qed.

(** X5. [execute_with_retry] makes at most five attempts and sleeps one second
    after each attempt that found the database locked. It returns at the first
    attempt that succeeds; it passes on at once an error that is not a lock;
    and when all five attempts found the database locked it raises "Database
    still locked after retries", after five attempts and five sleeps. *)
Theorem execute_with_retry_outcome outcome_of :
  match execute_with_retry outcome_of with
  | (Returned, log) =>
      ∃ k, (k < RETRY_ATTEMPTS)%nat
           ∧ (∀ j, (j < k)%nat → outcome_of j = RaisesLocked)
           ∧ outcome_of k = Succeeds
           ∧ attempts_made log = S k ∧ seconds_slept log = k
  | (Reraised a, log) =>
      ∃ k, (k < RETRY_ATTEMPTS)%nat
           ∧ (∀ j, (j < k)%nat → outcome_of j = RaisesLocked)
           ∧ outcome_of k = a
           ∧ (a = RaisesOperational ∨ a = RaisesIntegrity)
           ∧ attempts_made log = S k ∧ seconds_slept log = k
  | (StillLocked, log) =>
      (∀ j, (j < RETRY_ATTEMPTS)%nat → outcome_of j = RaisesLocked)
      ∧ attempts_made log = RETRY_ATTEMPTS ∧ seconds_slept log = RETRY_ATTEMPTS
  end.
Proof.
  unfold execute_with_retry.
  pose proof (retry_loop_spec RETRY_ATTEMPTS outcome_of 0 0) as Hspec.
  destruct (retry_loop RETRY_ATTEMPTS outcome_of (mkRetryLog 0 0)) as [[|a|] log].
  - destruct Hspec as (k & Hk & Hlocked & Hdone & ->). by exists k.
  - destruct Hspec as (k & Hk & Hlocked & Hdone & Ha & ->). by exists k.
  - by destruct Hspec as (Hlocked & ->).
Qed.

(** Locked twice, then through: three attempts, two sleeps. Locked five times:
    the script gives up, whatever a sixth attempt would have come to. *)
Example execute_with_retry_runs :
  execute_with_retry (λ k, if decide (k < 2)%nat then RaisesLocked else Succeeds)
  = (Returned, mkRetryLog 3 2)
  ∧ execute_with_retry (λ k, if decide (k < 5)%nat then RaisesLocked else Succeeds)
    = (StillLocked, mkRetryLog 5 5)
  ∧ execute_with_retry (λ k, if decide (k < 1)%nat then RaisesLocked else RaisesIntegrity)
    = (Reraised RaisesIntegrity, mkRetryLog 2 1).
Proof. split_and!; vm_compute; reflexivity. Qed.

(** X6. [add_new_admin] reports success exactly when one of the five attempts
    succeeded with the database locked at every attempt before it, and "name
    already exists" exactly when the first attempt that was not locked, among
    the five, raised an IntegrityError; otherwise it reports a database error. *)
Theorem add_new_admin_reports outcome_of :
  (add_new_admin outcome_of = AdminAdded
   ↔ ∃ k, (k < RETRY_ATTEMPTS)%nat
          ∧ (∀ j, (j < k)%nat → outcome_of j = RaisesLocked)
          ∧ outcome_of k = Succeeds)
  ∧ (add_new_admin outcome_of = NameExists
     ↔ ∃ k, (k < RETRY_ATTEMPTS)%nat
            ∧ (∀ j, (j < k)%nat → outcome_of j = RaisesLocked)
            ∧ outcome_of k = RaisesIntegrity).
Proof.
  unfold add_new_admin.
  pose proof (retry_loop_spec RETRY_ATTEMPTS outcome_of 0 0) as Hspec.
  unfold execute_with_retry.
  destruct (retry_loop RETRY_ATTEMPTS outcome_of (mkRetryLog 0 0)) as [[|a|] log]; simpl.
  - destruct Hspec as (k & Hk & Hlocked & Hdone & _). simpl in *. split.
    + split; [intros _; by exists k | done].
    + split; [done|]. intros (k' & Hk' & Hlocked' & Hdone').
      destruct (Nat.lt_trichotomy k k') as [Hlt|[->|Hlt]].
      * rewrite (Hlocked' k Hlt) in Hdone. discriminate Hdone.
      * congruence.
      * rewrite (Hlocked k' Hlt) in Hdone'. discriminate Hdone'.
  - destruct Hspec as (k & Hk & Hlocked & Hdone & Ha & _). simpl in *. split.
    + split; [by destruct a|]. intros (k' & Hk' & Hlocked' & Hdone').
      destruct (Nat.lt_trichotomy k k') as [Hlt|[->|Hlt]].
      * rewrite (Hlocked' k Hlt) in Hdone. destruct Ha; congruence.
      * destruct Ha; congruence.
      * rewrite (Hlocked k' Hlt) in Hdone'. discriminate Hdone'.
    + split.
      * destruct a; try done. intros _. by exists k.
      * intros (k' & Hk' & Hlocked' & Hdone').
        destruct (Nat.lt_trichotomy k k') as [Hlt|[->|Hlt]].
        -- rewrite (Hlocked' k Hlt) in Hdone. destruct Ha; congruence.
        -- rewrite Hdone' in Hdone. by subst a.
        -- rewrite (Hlocked k' Hlt) in Hdone'. discriminate Hdone'.
  - destruct Hspec as (Hlocked & _). simpl in *. split.
    + split; [done|]. intros (k & Hk & _ & Hdone).
      rewrite (Hlocked k Hk) in Hdone. discriminate Hdone.
    + split; [done|]. intros (k & Hk & _ & Hdone).
      rewrite (Hlocked k Hk) in Hdone. discriminate Hdone.
Qed.
